(** * Compute_EOQ and Compute_EOQ_TAC

    The two inventory functions of
    [5-Functions_and_Modules/Functions_and_Modules_Introduction.ipynb]:

    <<
    def Compute_EOQ(annual_demand, order_cost, holding_cost):
        import numpy as np
        EOQ = np.sqrt((2*annual_demand*order_cost)/holding_cost)
        return EOQ

    def Compute_EOQ_TAC(EOQ, annual_demand, order_cost, holding_cost, unit_cost):
        TAC = (annual_demand/EOQ)*order_cost + (EOQ/2)*holding_cost + unit_cost*annual_demand
        return TAC
    >>

    The functions are duck-typed: they use [*], [+], [/] and [np.sqrt] of
    whatever numbers they are given.  The bodies are therefore embedded once,
    over an interface of these four operations, and read at two instances:

    - [Binary64]: the scalars the notebook passes (Python [int], Python
      [float], NumPy [float64]) with IEEE binary64 arithmetic, Python's
      exceptions and NumPy's non-raising float64 operations; it is
      executable and reproduces the numbers the notebook prints;
    - [Exact]: the same operations on exact real numbers, the data model of
      the specification (no rounding, no overflow).

    What the two functions return or raise is stated on [Binary64], the
    arithmetic of the program; module [Values] writes the returned binary64
    values out case by case, and the theorems compare them with the function
    bodies.  [Exact] carries the statements that are themselves about exact
    real arithmetic: the cost balance, the scaling law and the optimum.
    Every operand is a scalar.

    The cells that call the two functions follow: the two-stage computation
    of EOQ and TAC, and the sweep over unit costs, whose array
    [np.linspace(0.25, 25, 100)] is the list of its float64 scalars. *)

From Stdlib Require Import ZArith Bool Floats Reals Lra Lia List Sorted.
Import ListNotations.

(* A decimal literal denotes the nearest binary64 number, as in Python. *)
Set Warnings "-inexact-float".

(** ** Outcome of evaluating a Python expression *)

Inductive exn : Type :=
| ZeroDivisionError
| OverflowError
| TypeError.

Inductive result (A : Type) : Type :=
| Ok (a : A)
| Raise (e : exn).

Arguments Ok {A} a.
Arguments Raise {A} e.

Definition bind {A B : Type} (r : result A) (k : A -> result B) : result B :=
  match r with
  | Ok a => k a
  | Raise e => Raise e
  end.

Notation "x <- r ;; k" := (bind r (fun x => k))
  (at level 61, r at next level, right associativity).

(** ** The operations the function bodies use *)

Class Number (V : Type) : Type := {
  lit : Z -> V;                       (* an integer literal of the source *)
  py_mul : V -> V -> result V;        (* x * y *)
  py_add : V -> V -> result V;        (* x + y *)
  py_truediv : V -> V -> result V;    (* x / y *)
  np_sqrt : V -> result V             (* np.sqrt(x) *)
}.

(** ** The two functions, in Python's order of evaluation *)

Section Program.
Context {V : Type} `{Number V}.

Definition Compute_EOQ (annual_demand order_cost holding_cost : V) : result V :=
  t1 <- py_mul (lit 2) annual_demand ;;
  t2 <- py_mul t1 order_cost ;;
  t3 <- py_truediv t2 holding_cost ;;
  EOQ <- np_sqrt t3 ;;
  Ok EOQ.

Definition Compute_EOQ_TAC
    (EOQ annual_demand order_cost holding_cost unit_cost : V) : result V :=
  t1 <- py_truediv annual_demand EOQ ;;
  t2 <- py_mul t1 order_cost ;;
  t3 <- py_truediv EOQ (lit 2) ;;
  t4 <- py_mul t3 holding_cost ;;
  t5 <- py_add t2 t4 ;;
  t6 <- py_mul unit_cost annual_demand ;;
  TAC <- py_add t5 t6 ;;
  Ok TAC.

(** The argument of [np.sqrt] in [Compute_EOQ]. *)
Definition radicand (annual_demand order_cost holding_cost : V) : result V :=
  t1 <- py_mul (lit 2) annual_demand ;;
  t2 <- py_mul t1 order_cost ;;
  py_truediv t2 holding_cost.
End Program.

(** ** Binary64: the scalars of the notebook *)

Module Binary64.

(** [1000], [25], [2], [8] are Python ints; [158.11388300841898] is a
    Python float; [np.linspace] and [np.sqrt] yield NumPy float64 scalars. *)
Inductive pynum : Type :=
| PyInt (z : Z)
| PyFloat (f : float)
| NpFloat64 (f : float).

(** An int as an unrounded binary number [m * 2^0]. *)
Definition int_to_SF (z : Z) : spec_float :=
  match z with
  | Z0 => S754_zero false
  | Zpos p => S754_finite false p 0
  | Zneg p => S754_finite true p 0
  end.

(** A correctly rounded result; Python raises where rounding overflows. *)
Definition rounded (sf : spec_float) : result float :=
  match sf with
  | S754_infinity _ => Raise OverflowError
  | _ => Ok (SF2Prim sf)
  end.

(** [float(z)]: round to nearest, ties to even; OverflowError beyond the
    binary64 range. *)
Definition int_to_float (z : Z) : result float :=
  rounded (binary_normalize prec emax z 0 false).

(** [a / b] on ints: the correctly rounded quotient. *)
Definition int_truediv (a b : Z) : result float :=
  if (b =? 0)%Z then Raise ZeroDivisionError
  else rounded (SFdiv prec emax (int_to_SF a) (int_to_SF b)).

(** [x / y] on Python floats. *)
Definition float_truediv (x y : float) : result float :=
  if (y =? 0)%float then Raise ZeroDivisionError else Ok (x / y)%float.

Definition to_float (v : pynum) : result float :=
  match v with
  | PyInt z => int_to_float z
  | PyFloat f => Ok f
  | NpFloat64 f => Ok f
  end.

Definition is_np (v : pynum) : bool :=
  match v with
  | NpFloat64 _ => true
  | _ => false
  end.

(** A binary operator: ints stay ints; otherwise both operands become
    binary64, and the result is a NumPy float64 as soon as one operand is
    (NumPy's operation never raises), a Python float otherwise. *)
Definition binop
    (int_op : Z -> Z -> result pynum)
    (float_op : float -> float -> result float)
    (np_op : float -> float -> float)
    (x y : pynum) : result pynum :=
  match x, y with
  | PyInt a, PyInt b => int_op a b
  | _, _ =>
      a <- to_float x ;;
      b <- to_float y ;;
      if is_np x || is_np y then Ok (NpFloat64 (np_op a b))
      else r <- float_op a b ;; Ok (PyFloat r)
  end.

Definition mul_num : pynum -> pynum -> result pynum :=
  binop (fun a b => Ok (PyInt (a * b)))
        (fun a b => Ok (a * b)%float)
        PrimFloat.mul.

Definition add_num : pynum -> pynum -> result pynum :=
  binop (fun a b => Ok (PyInt (a + b)))
        (fun a b => Ok (a + b)%float)
        PrimFloat.add.

Definition truediv_num : pynum -> pynum -> result pynum :=
  binop (fun a b => r <- int_truediv a b ;; Ok (PyFloat r))
        float_truediv
        PrimFloat.div.

(** [np.sqrt] of a scalar: a float64, NaN for a negative argument.  An int
    outside the 64-bit range has no float64 loop. *)
Definition sqrt_num (v : pynum) : result pynum :=
  match v with
  | PyInt z =>
      if ((- 2 ^ 63 <=? z) && (z <? 2 ^ 64))%Z
      then f <- int_to_float z ;; Ok (NpFloat64 (PrimFloat.sqrt f))
      else Raise TypeError
  | PyFloat f => Ok (NpFloat64 (PrimFloat.sqrt f))
  | NpFloat64 f => Ok (NpFloat64 (PrimFloat.sqrt f))
  end.

#[global] Instance pynum_Number : Number pynum := {
  lit := PyInt;
  py_mul := mul_num;
  py_add := add_num;
  py_truediv := truediv_num;
  np_sqrt := sqrt_num
}.

(** [x == 0]. *)
Definition is_zero (v : pynum) : bool :=
  match v with
  | PyInt z => (z =? 0)%Z
  | PyFloat f => (f =? 0)%float
  | NpFloat64 f => (f =? 0)%float
  end.

(** [x < 0]. *)
Definition is_negative (v : pynum) : bool :=
  match v with
  | PyInt z => (z <? 0)%Z
  | PyFloat f => (f <? 0)%float
  | NpFloat64 f => (f <? 0)%float
  end.

(** A Python int or float, as opposed to a NumPy scalar. *)
Definition builtin (v : pynum) : bool := negb (is_np v).

(** The binary64 value of a float operand (none for an int). *)
Definition as_float (v : pynum) : option float :=
  match v with
  | PyInt _ => None
  | PyFloat f => Some f
  | NpFloat64 f => Some f
  end.

(** An infinity or a NaN. *)
Definition nonfinite (sf : spec_float) : bool :=
  match sf with
  | S754_nan => true
  | S754_infinity _ => true
  | _ => false
  end.

(** [abs(x - y) <= tol] on binary64 values. *)
Definition within (tol x y : float) : bool :=
  (PrimFloat.abs (x - y) <=? tol)%float.

End Binary64.

(** ** Exact: the same operations on real numbers *)

Module Exact.

(** A real number, or the undefined value [np.sqrt] gives a negative
    argument. *)
Inductive xreal : Type :=
| Real (r : R)
| XNaN.

Definition lift2 (f : R -> R -> R) (x y : xreal) : xreal :=
  match x, y with
  | Real a, Real b => Real (f a b)
  | _, _ => XNaN
  end.

Definition mul_x (x y : xreal) : result xreal := Ok (lift2 Rmult x y).

Definition add_x (x y : xreal) : result xreal := Ok (lift2 Rplus x y).

(** Python's float rule: a zero divisor raises, whatever the dividend. *)
Definition truediv_x (x y : xreal) : result xreal :=
  match y with
  | Real d =>
      if Req_dec_T d 0 then Raise ZeroDivisionError
      else Ok (lift2 Rdiv x y)
  | XNaN => Ok XNaN
  end.

Definition sqrt_x (x : xreal) : result xreal :=
  match x with
  | Real r => if Rlt_dec r 0 then Ok XNaN else Ok (Real (sqrt r))
  | XNaN => Ok XNaN
  end.

#[global] Instance xreal_Number : Number xreal := {
  lit := fun z => Real (IZR z);
  py_mul := mul_x;
  py_add := add_x;
  py_truediv := truediv_x;
  np_sqrt := sqrt_x
}.

End Exact.

(** ** The cells that call the two functions *)

(** The float literal [0.25] of the sweep over unit costs. *)
Class FloatLiteral (V : Type) : Type := {
  lit_0_25 : V
}.

#[global] Instance pynum_FloatLiteral : FloatLiteral Binary64.pynum := {
  lit_0_25 := Binary64.PyFloat 0.25
}.

#[global] Instance xreal_FloatLiteral : FloatLiteral Exact.xreal := {
  lit_0_25 := Exact.Real 0.25
}.

Section Callers.
Context {V : Type} `{Number V} `{FloatLiteral V}.

(** [EOQ = Compute_EOQ(annual_demand, order_cost, holding_cost)] and then
    [TAC = Compute_EOQ_TAC(EOQ, annual_demand, order_cost, holding_cost,
    unit_cost)]: the two values the cell prints. *)
Definition EOQ_and_TAC
    (annual_demand order_cost holding_cost unit_cost : V) : result (V * V) :=
  EOQ <- Compute_EOQ annual_demand order_cost holding_cost ;;
  TAC <- Compute_EOQ_TAC EOQ annual_demand order_cost holding_cost unit_cost ;;
  Ok (EOQ, TAC).

(** One pass through the body of the [for] loop over the unit costs; the
    state is the pair of [EOQ_list] and [unit_cost_list]. *)
Definition sweep_body
    (annual_demand order_cost : V) (lists : list V * list V) (unit_cost : V)
    : result (list V * list V) :=
  let '(EOQ_list, unit_cost_list) := lists in
  holding_cost <- py_mul lit_0_25 unit_cost ;;
  EOQ <- Compute_EOQ annual_demand order_cost holding_cost ;;
  Ok (EOQ_list ++ [EOQ], unit_cost_list ++ [unit_cost]).

(** The loop: the two lists when it ends and the exception that ended it,
    if any.  A pass that raises appends nothing, so the lists stay as the
    last complete pass left them. *)
Fixpoint sweep_loop
    (annual_demand order_cost : V) (lists : list V * list V)
    (unit_costs : list V) : (list V * list V) * option exn :=
  match unit_costs with
  | [] => (lists, None)
  | unit_cost :: rest =>
      match sweep_body annual_demand order_cost lists unit_cost with
      | Ok lists' => sweep_loop annual_demand order_cost lists' rest
      | Raise e => (lists, Some e)
      end
  end.

(** [EOQ_list = []], [unit_cost_list = []] and the loop. *)
Definition sweep (annual_demand order_cost : V) (unit_costs : list V)
    : (list V * list V) * option exn :=
  sweep_loop annual_demand order_cost ([], []) unit_costs.

End Callers.

(** [np.linspace(start, stop, num)] with the endpoint included, on binary64
    numbers: NumPy computes [arange(0, num) * step + start] with
    [step = (stop - start) / (num - 1)] (dividing the indices first when the
    step underflows to zero) and stores [stop] as the last sample. *)
Definition arange (num : nat) : list float :=
  map (fun i => SF2Prim (binary_normalize prec emax (Z.of_nat i) 0 false))
      (seq 0 num).

Definition linspace (start stop : float) (num : nat) : list float :=
  let delta := (stop - start)%float in
  let y :=
    match num with
    | 0%nat | 1%nat => map (fun i => (i * delta)%float) (arange num)
    | _ =>
        let div :=
          SF2Prim (binary_normalize prec emax (Z.of_nat (num - 1)) 0 false) in
        let step := (delta / div)%float in
        if (step =? 0)%float
        then map (fun i => (i / div * delta)%float) (arange num)
        else map (fun i => (i * step)%float) (arange num)
    end in
  let y := map (fun v => (v + start)%float) y in
  match num with
  | 0%nat | 1%nat => y
  | _ => firstn (num - 1) y ++ [stop]
  end.

(** [for unit_cost in np.linspace(0.25, 25, 100)]: iterating over the array
    yields NumPy float64 scalars. *)
Definition notebook_unit_costs : list Binary64.pynum :=
  map Binary64.NpFloat64 (linspace 0.25 25 100).


(** ** The binary64 values in words

    What the two functions compute on Python and NumPy scalars, written
    out case by case; the theorems below compare these descriptions with
    the function bodies. *)

Module Values.
Import Binary64.

(** A float result: a NumPy float64 as soon as an operand is one, a Python
    float otherwise. *)
Definition float_result (np : bool) (f : float) : pynum :=
  if np then NpFloat64 f else PyFloat f.

(** [x / y]: between two ints, Python's correctly rounded quotient;
    otherwise the binary64 quotient of the float values, an int operand
    converted by [float()]. *)
Definition quotient (x y : pynum) : result float :=
  match x, y with
  | PyInt a, PyInt b => int_truediv a b
  | _, _ => fx <- to_float x ;; fy <- to_float y ;; Ok (fx / fy)%float
  end.

(** [x * y] as a float: between two ints, the exact product converted by
    [float()]; otherwise the binary64 product of the float values. *)
Definition product (x y : pynum) : result float :=
  match x, y with
  | PyInt a, PyInt b => int_to_float (a * b)
  | _, _ => fx <- to_float x ;; fy <- to_float y ;; Ok (fx * fy)%float
  end.

(** [2 * x]: an exact int, or a binary64 product. *)
Definition double (x : pynum) : pynum :=
  match x with
  | PyInt a => PyInt (2 * a)
  | PyFloat f => PyFloat (2 * f)
  | NpFloat64 f => NpFloat64 (2 * f)
  end.

(** The binary64 value of [(2*annual_demand*order_cost)/holding_cost]: the
    product is exact when annual_demand and order_cost are ints, and a
    binary64 product otherwise. *)
Definition radicand_value
    (annual_demand order_cost holding_cost : pynum) : result float :=
  match annual_demand, order_cost with
  | PyInt a, PyInt o => quotient (PyInt (2 * a * o)) holding_cost
  | _, _ =>
      n <- product (double annual_demand) order_cost ;;
      fh <- to_float holding_cost ;;
      Ok (n / fh)%float
  end.

(** The binary64 value of [(annual_demand/EOQ)*order_cost +
    (EOQ/2)*holding_cost + unit_cost*annual_demand]. *)
Definition TAC_value
    (EOQ annual_demand order_cost holding_cost unit_cost : pynum)
    : result float :=
  q1 <- quotient annual_demand EOQ ;;
  fo <- to_float order_cost ;;
  q3 <- quotient EOQ (PyInt 2) ;;
  fh <- to_float holding_cost ;;
  p <- product unit_cost annual_demand ;;
  Ok (q1 * fo + q3 * fh + p)%float.

(** [float(z)] raises OverflowError: the int is too large for a float. *)
Definition float_overflows (z : Z) : bool :=
  match int_to_float z with
  | Ok _ => false
  | Raise _ => true
  end.

(** The operand is an int too large for a float. *)
Definition overflows (v : pynum) : bool :=
  match v with
  | PyInt z => float_overflows z
  | _ => false
  end.

(** [Compute_EOQ] with a zero holding_cost converts an int too large for a
    float before it divides: the exact product when annual_demand and
    order_cost are ints and holding_cost is a float; otherwise the int among
    [2*annual_demand] and order_cost that meets a float. *)
Definition conversion_overflows
    (annual_demand order_cost holding_cost : pynum) : bool :=
  match annual_demand, order_cost, holding_cost with
  | PyInt _, PyInt _, PyInt _ => false
  | PyInt a, PyInt o, _ => float_overflows (2 * a * o)
  | _, _, _ => overflows (double annual_demand) || overflows order_cost
  end.

(** [Compute_EOQ_TAC] with a zero EOQ converts an int too large for a
    float: between Python numbers only annual_demand, before it is divided
    by a float zero; with a NumPy float64 EOQ or annual_demand any int
    operand, or the exact product of unit_cost and annual_demand. *)
Definition TAC_conversion_overflows
    (EOQ annual_demand order_cost holding_cost unit_cost : pynum) : bool :=
  if builtin EOQ && builtin annual_demand
  then
    match annual_demand, EOQ with
    | PyInt a, PyFloat _ => float_overflows a
    | _, _ => false
    end
  else
    overflows annual_demand || overflows order_cost || overflows holding_cost
    || match unit_cost, annual_demand with
       | PyInt u, PyInt a => float_overflows (u * a)
       | _, _ => overflows unit_cost
       end.

(** A positive finite float. *)
Definition finite_positive (f : float) : bool :=
  ((0 <? f) && (f <? infinity))%float.

(** A finite float other than zero. *)
Definition finite_nonzero (f : float) : bool :=
  (((f <? 0) || (0 <? f)) && (abs f <? infinity))%float.

(** [x > 0], and finite. *)
Definition is_positive (v : pynum) : bool :=
  match v with
  | PyInt z => (0 <? z)%Z
  | PyFloat f => finite_positive f
  | NpFloat64 f => finite_positive f
  end.


(** [x != 0], and finite. *)
Definition is_regular (v : pynum) : bool :=
  match v with
  | PyInt z => negb (z =? 0)%Z
  | PyFloat f => finite_nonzero f
  | NpFloat64 f => finite_nonzero f
  end.

(** A zero, an infinity or a finite number of sign [s]. *)
Definition sign_is (s : bool) (sf : spec_float) : bool :=
  match sf with
  | S754_zero s' => Bool.eqb s' s
  | S754_infinity s' => Bool.eqb s' s
  | S754_finite s' _ _ => Bool.eqb s' s
  | S754_nan => false
  end.

(** A finite nonzero number of sign [s]. *)
Definition finite_sign (s : bool) (sf : spec_float) : bool :=
  match sf with
  | S754_finite s' _ _ => Bool.eqb s' s
  | _ => false
  end.

End Values.


(** * Exact arithmetic: the formulas and their algebra *)

Section ExactArithmetic.
Import Exact.
Local Open Scope R_scope.

(** Unfolds a function body to the real-number tests it makes. *)
Ltac run_exact :=
  unfold Compute_EOQ, Compute_EOQ_TAC, radicand; cbn;
  unfold truediv_x, sqrt_x, mul_x, add_x; cbn.

(** Settles the tests [d = 0] and [r < 0] met along the way. *)
Ltac decide_tests :=
  repeat match goal with
  | |- context [Req_dec_T ?d 0] =>
      destruct (Req_dec_T d 0); [exfalso; lra | cbn]
  | |- context [Rlt_dec ?r 0] => destruct (Rlt_dec r 0); cbn
  end.

Lemma radicand_pos (a o h : R) :
  0 < a -> 0 < o -> 0 < h -> 0 < 2 * a * o / h.
Proof.
  intros Ha Ho Hh. apply Rdiv_lt_0_compat; [|assumption].
  apply Rmult_lt_0_compat; [lra | assumption].
Qed.

(** On positive operands the exact EOQ is the square root of the radicand. *)
Lemma Compute_EOQ_pos (a o h : R) :
  0 < a -> 0 < o -> 0 < h ->
  Compute_EOQ (Real a) (Real o) (Real h) = Ok (Real (sqrt (2 * a * o / h))).
Proof.
  intros Ha Ho Hh. pose proof (radicand_pos a o h Ha Ho Hh) as Hr.
  run_exact. decide_tests; [exfalso; lra | reflexivity].
Qed.

(** For a positive EOQ the exact TAC is the value of the formula. *)
Lemma Compute_EOQ_TAC_pos (Q a o h u : R) :
  0 < Q ->
  Compute_EOQ_TAC (Real Q) (Real a) (Real o) (Real h) (Real u)
  = Ok (Real (a / Q * o + Q / 2 * h + u * a)).
Proof. intros HQ. run_exact. decide_tests. reflexivity. Qed.

(** The exact EOQ squares to the radicand. *)
Lemma sqrt_radicand_sqr (a o h : R) :
  0 < a -> 0 < o -> 0 < h ->
  sqrt (2 * a * o / h) * sqrt (2 * a * o / h) = 2 * a * o / h.
Proof.
  intros Ha Ho Hh. apply sqrt_sqrt, Rlt_le, radicand_pos; assumption.
Qed.

(** C10. Cost balance of the two-stage pipeline: for positive annual_demand,
    order_cost and holding_cost, with Q = Compute_EOQ(annual_demand,
    order_cost, holding_cost), the ordering term (annual_demand / Q) *
    order_cost equals the holding term (Q / 2) * holding_cost, so
    Compute_EOQ_TAC(Q, ...) = Q * holding_cost + unit_cost * annual_demand
    in exact real arithmetic. *)
Theorem cost_balance (annual_demand order_cost holding_cost unit_cost : R) :
  0 < annual_demand -> 0 < order_cost -> 0 < holding_cost ->
  exists Q,
    Compute_EOQ (Real annual_demand) (Real order_cost) (Real holding_cost)
    = Ok (Real Q)
    /\ annual_demand / Q * order_cost = Q / 2 * holding_cost
    /\ Compute_EOQ_TAC (Real Q) (Real annual_demand) (Real order_cost)
                       (Real holding_cost) (Real unit_cost)
       = Ok (Real (Q * holding_cost + unit_cost * annual_demand)).
Proof.
  intros Ha Ho Hh.
  pose proof (radicand_pos _ _ _ Ha Ho Hh) as Hr.
  pose proof (sqrt_radicand_sqr _ _ _ Ha Ho Hh) as Hsq.
  pose proof (sqrt_lt_R0 _ Hr) as HQ.
  set (Q := sqrt (2 * annual_demand * order_cost / holding_cost)) in *.
  assert (Hbal : annual_demand / Q * order_cost = Q / 2 * holding_cost).
  { apply Rmult_eq_reg_r with (r := Q); [|lra].
    replace (annual_demand / Q * order_cost * Q)
      with (annual_demand * order_cost) by (field; lra).
    replace (Q / 2 * holding_cost * Q)
      with (Q * Q * holding_cost / 2) by field.
    rewrite Hsq. field. lra. }
  exists Q. split; [apply Compute_EOQ_pos; assumption|]. split; [exact Hbal|].
  rewrite Compute_EOQ_TAC_pos by assumption.
  do 2 f_equal. rewrite Hbal. field.
Qed.

Lemma cost_balance_witness :
  exists Q,
    Compute_EOQ (Real 1000) (Real 25) (Real 2) = Ok (Real Q)
    /\ 1000 / Q * 25 = Q / 2 * 2
    /\ Compute_EOQ_TAC (Real Q) (Real 1000) (Real 25) (Real 2) (Real 8)
       = Ok (Real (Q * 2 + 8 * 1000)).
Proof. apply (cost_balance 1000 25 2 8); lra. Defined.

(** C6, as amended. For all positive a, o, h and k:
    EOQ(k^2 a, o, h / k^2) = k^2 * EOQ(a, o, h), which equals EOQ(a, o, h)
    only for k = 1; quadrupling annual_demand while doubling holding_cost
    multiplies the result by sqrt 2; the scaling that leaves the result
    unchanged is EOQ(k a, o, k h) = EOQ(a, o, h). *)
Theorem scaling_law (a o h k : R) :
  0 < a -> 0 < o -> 0 < h -> 0 < k ->
  exists Q,
    Compute_EOQ (Real a) (Real o) (Real h) = Ok (Real Q)
    /\ Compute_EOQ (Real (k ^ 2 * a)) (Real o) (Real (h / k ^ 2))
       = Ok (Real (k ^ 2 * Q))
    /\ (k ^ 2 * Q = Q <-> k = 1)
    /\ Compute_EOQ (Real (4 * a)) (Real o) (Real (2 * h))
       = Ok (Real (sqrt 2 * Q))
    /\ Compute_EOQ (Real (k * a)) (Real o) (Real (k * h)) = Ok (Real Q).
Proof.
  intros Ha Ho Hh Hk.
  pose proof (radicand_pos _ _ _ Ha Ho Hh) as Hr.
  pose proof (sqrt_lt_R0 _ Hr) as HQ.
  assert (Hk2 : 0 < k ^ 2) by (apply pow_lt; assumption).
  exists (sqrt (2 * a * o / h)). split; [apply Compute_EOQ_pos; assumption|].
  split; [|split; [|split]].
  - rewrite Compute_EOQ_pos;
      [| apply Rmult_lt_0_compat | | apply Rdiv_lt_0_compat]; try assumption.
    do 2 f_equal.
    replace (2 * (k ^ 2 * a) * o / (h / k ^ 2))
      with ((k ^ 2 * k ^ 2) * (2 * a * o / h)) by (field; lra).
    rewrite sqrt_mult_alt by nra.
    rewrite sqrt_square by lra. reflexivity.
  - split; intros E.
    + assert (E2 : k ^ 2 = 1).
      { apply Rmult_eq_reg_r with (r := sqrt (2 * a * o / h)); lra. }
      nra.
    + subst k. lra.
  - rewrite Compute_EOQ_pos by lra. do 2 f_equal.
    replace (2 * (4 * a) * o / (2 * h)) with (2 * (2 * a * o / h))
      by (field; lra).
    apply sqrt_mult_alt. lra.
  - rewrite Compute_EOQ_pos;
      [| apply Rmult_lt_0_compat | | apply Rmult_lt_0_compat]; try assumption.
    do 3 f_equal. field. lra.
Qed.

Lemma scaling_law_witness :
  exists Q,
    Compute_EOQ (Real 1) (Real 2) (Real 4) = Ok (Real Q)
    /\ Compute_EOQ (Real (2 ^ 2 * 1)) (Real 2) (Real (4 / 2 ^ 2))
       = Ok (Real (2 ^ 2 * Q))
    /\ (2 ^ 2 * Q = Q <-> 2 = 1)
    /\ Compute_EOQ (Real (4 * 1)) (Real 2) (Real (2 * 4))
       = Ok (Real (sqrt 2 * Q))
    /\ Compute_EOQ (Real (2 * 1)) (Real 2) (Real (2 * 4)) = Ok (Real Q).
Proof. apply (scaling_law 1 2 4 2); lra. Defined.

(** C6, as the specification states it, fails already for k = 2 at
    a = 1, o = 2, h = 4: EOQ(1, 2, 4) = 1 but EOQ(4, 2, 1) = 4; and
    quadrupling demand while doubling holding cost gives EOQ(4, 2, 8) =
    sqrt 2, not 1.  The binary64 evaluation shows the same three values. *)
Lemma scaling_law_as_stated_fails :
  Compute_EOQ (Real 1) (Real 2) (Real 4) = Ok (Real 1)
  /\ Compute_EOQ (Real (2 ^ 2 * 1)) (Real 2) (Real (4 / 2 ^ 2)) = Ok (Real 4)
  /\ Compute_EOQ (Real 1) (Real 2) (Real 4)
     <> Compute_EOQ (Real (2 ^ 2 * 1)) (Real 2) (Real (4 / 2 ^ 2))
  /\ Compute_EOQ (Real 1) (Real 2) (Real 4)
     <> Compute_EOQ (Real (4 * 1)) (Real 2) (Real (2 * 4))
  /\ Compute_EOQ (Binary64.PyInt 1) (Binary64.PyInt 2) (Binary64.PyInt 4)
     = Ok (Binary64.NpFloat64 1)
  /\ Compute_EOQ (Binary64.PyInt 4) (Binary64.PyInt 2) (Binary64.PyInt 1)
     = Ok (Binary64.NpFloat64 4)
  /\ Compute_EOQ (Binary64.PyInt 4) (Binary64.PyInt 2) (Binary64.PyInt 8)
     = Ok (Binary64.NpFloat64 1.4142135623730951).
Proof.
  assert (H1 : Compute_EOQ (Real 1) (Real 2) (Real 4) = Ok (Real 1)).
  { rewrite Compute_EOQ_pos by lra. do 2 f_equal.
    replace (2 * 1 * 2 / 4) with 1 by field. apply sqrt_1. }
  assert (H4 : Compute_EOQ (Real (2 ^ 2 * 1)) (Real 2) (Real (4 / 2 ^ 2))
               = Ok (Real 4)).
  { rewrite Compute_EOQ_pos by lra. do 2 f_equal.
    replace (2 * (2 ^ 2 * 1) * 2 / (4 / 2 ^ 2)) with (4 * 4) by field.
    apply sqrt_square. lra. }
  assert (H2 : Compute_EOQ (Real (4 * 1)) (Real 2) (Real (2 * 4))
               = Ok (Real (sqrt 2))).
  { rewrite Compute_EOQ_pos by lra. do 3 f_equal. field. }
  repeat split; try assumption; try (vm_compute; reflexivity).
  - rewrite H1, H4. intros E. injection E. lra.
  - rewrite H1, H2. intros E. injection E as E.
    assert (Hs : sqrt 2 * sqrt 2 = 2) by (apply sqrt_sqrt; lra).
    rewrite <- E in Hs. lra.
Qed.

(** The exact EOQ of the notebook's scenario is within 1e-9 of the printed
    value. *)
Lemma exact_EOQ_scenario :
  exists Q,
    Compute_EOQ (Real 1000) (Real 25) (Real 2) = Ok (Real Q)
    /\ Rabs (Q - 158.11388300841898) <= 1e-9.
Proof.
  eexists. split; [apply Compute_EOQ_pos; lra|].
  replace (2 * 1000 * 25 / 2) with 25000 by field.
  assert (Hlo : 158.11388300741898 <= sqrt 25000).
  { rewrite <- (sqrt_square 158.11388300741898) by lra.
    apply sqrt_le_1_alt. lra. }
  assert (Hhi : sqrt 25000 <= 158.11388300941898).
  { rewrite <- (sqrt_square 158.11388300941898) by lra.
    apply sqrt_le_1_alt. lra. }
  apply Rabs_le. lra.
Qed.

(** The exact TAC of the printed EOQ is within 1e-6 of the printed TAC. *)
Lemma exact_TAC_scenario :
  exists T,
    Compute_EOQ_TAC (Real 158.11388300841898) (Real 1000) (Real 25)
                    (Real 2) (Real 8)
    = Ok (Real T)
    /\ Rabs (T - 8316.227766016838) <= 1e-6.
Proof.
  eexists. split; [apply Compute_EOQ_TAC_pos; lra|].
  apply Rabs_le. lra.
Qed.

End ExactArithmetic.

(** * Binary64: exceptions, NaN and the notebook's numbers *)

Section Evaluation.
Context {V : Type} `{Number V}.

(** [Compute_EOQ] is [np.sqrt] applied to the radicand. *)
Lemma Compute_EOQ_radicand (a o h : V) :
  Compute_EOQ a o h = t <- radicand a o h ;; EOQ <- np_sqrt t ;; Ok EOQ.
Proof.
  unfold Compute_EOQ, radicand.
  destruct (py_mul (lit 2) a) as [t1|e]; [cbn | reflexivity].
  destruct (py_mul t1 o) as [t2|e]; reflexivity.
Qed.

(** An exception of the first division of [Compute_EOQ_TAC] is the call's. *)
Lemma Compute_EOQ_TAC_first_division (EOQ a o h u : V) (e : exn) :
  py_truediv a EOQ = Raise e -> Compute_EOQ_TAC EOQ a o h u = Raise e.
Proof. intros E. unfold Compute_EOQ_TAC. rewrite E. reflexivity. Qed.

End Evaluation.

(** * Binary64 rounding: signs and underflow *)

Section Rounding.
Import Binary64.
Local Open Scope Z_scope.

(** The number of binary digits of a positive number is its size. *)
Lemma digits2_pos_size (p : positive) : digits2_pos p = Pos.size p.
Proof. induction p; cbn; congruence. Qed.

(** Digits and binary logarithm. *)
Lemma Zdigits2_log2 (m : Z) : 0 < m -> Zdigits2 m = Z.log2 m + 1.
Proof.
  destruct m as [|p|p]; try discriminate. intros _. cbn [Zdigits2].
  destruct p; cbn [digits2_pos Z.log2]; rewrite ?digits2_pos_size; lia.
Qed.

(** One step of the rounding shift halves the mantissa. *)
Lemma shr_1_m (mrs : shr_record) :
  0 <= shr_m mrs -> shr_m (shr_1 mrs) = Z.div2 (shr_m mrs).
Proof.
  destruct mrs as [m r s]. cbn [shr_m]. intros Hm.
  destruct m as [|[p|p|]|p]; try reflexivity. lia.
Qed.

(** [p] steps shift the mantissa right by [p]. *)
Lemma iter_shr_1_m (p : positive) (mrs : shr_record) :
  0 <= shr_m mrs ->
  shr_m (SpecFloat.iter_pos shr_1 p mrs) = Z.shiftr (shr_m mrs) (Z.pos p).
Proof.
  revert mrs. induction p as [p IH|p IH|]; intros mrs Hm; cbn [SpecFloat.iter_pos].
  - assert (H1 : 0 <= shr_m (shr_1 mrs)).
    { rewrite shr_1_m by assumption. apply Z.div2_nonneg. assumption. }
    assert (H2 : 0 <= shr_m (SpecFloat.iter_pos shr_1 p (shr_1 mrs))).
    { rewrite IH by assumption. apply Z.shiftr_nonneg. assumption. }
    rewrite IH, IH, shr_1_m, Z.div2_spec by assumption.
    rewrite !Z.shiftr_shiftr by lia. f_equal. lia.
  - assert (H2 : 0 <= shr_m (SpecFloat.iter_pos shr_1 p mrs)).
    { rewrite IH by assumption. apply Z.shiftr_nonneg. assumption. }
    rewrite IH, IH by assumption.
    rewrite !Z.shiftr_shiftr by lia. f_equal. lia.
  - rewrite shr_1_m, Z.div2_spec by assumption. reflexivity.
Qed.

(** Shifting by fewer positions than there are digits leaves a positive
    number with that many digits less. *)
Lemma shiftr_pos (m n : Z) :
  0 < m -> 0 <= n < Zdigits2 m ->
  0 < Z.shiftr m n /\ Zdigits2 (Z.shiftr m n) = Zdigits2 m - n.
Proof.
  intros Hm Hn. rewrite (Zdigits2_log2 m Hm) in *.
  assert (Hs : 0 < Z.shiftr m n).
  { rewrite Z.shiftr_div_pow2 by lia.
    apply Z.div_str_pos. split; [apply Z.pow_pos_nonneg; lia|].
    transitivity (2 ^ Z.log2 m).
    - apply Z.pow_le_mono_r; lia.
    - apply Z.log2_spec. assumption. }
  split; [assumption|].
  rewrite Zdigits2_log2 by assumption.
  rewrite Z.log2_shiftr by assumption. lia.
Qed.

Lemma shr_record_of_loc_m (m : Z) (l : location) :
  shr_m (shr_record_of_loc m l) = m.
Proof. destruct l as [|[| |]]; reflexivity. Qed.

(** Above the smallest exponent the target exponent lies below the
    magnitude. *)
Lemma fexp_lt (x : Z) : emin < x -> fexp prec emax x < x.
Proof. unfold fexp, SpecFloat.emin, prec, emax. lia. Qed.

(** In the normal and subnormal range a shift leaves a positive mantissa
    and keeps the sum of digits and exponent. *)
Lemma shr_fexp_pos (m e : Z) (l : location) :
  0 < m -> emin < Zdigits2 m + e ->
  0 < shr_m (fst (shr_fexp prec emax m e l))
  /\ Zdigits2 (shr_m (fst (shr_fexp prec emax m e l)))
     + snd (shr_fexp prec emax m e l)
     = Zdigits2 m + e.
Proof.
  intros Hm Hd. unfold shr_fexp, shr.
  pose proof (fexp_lt _ Hd) as Hf.
  destruct (fexp prec emax (Zdigits2 m + e) - e) as [|n|n] eqn:En;
    cbn [fst snd]; rewrite ?shr_record_of_loc_m; try (split; [assumption|lia]).
  rewrite iter_shr_1_m by (rewrite shr_record_of_loc_m; lia).
  rewrite shr_record_of_loc_m.
  destruct (shiftr_pos m (Z.pos n)) as [Hp Hg]; [assumption | lia |].
  split; [assumption | lia].
Qed.

(** Rounding to nearest never decreases the mantissa. *)
Lemma round_nearest_even_pos (m : Z) (l : location) :
  0 < m ->
  0 < round_nearest_even m l /\ Zdigits2 m <= Zdigits2 (round_nearest_even m l).
Proof.
  intros Hm.
  assert (H : m <= round_nearest_even m l).
  { unfold round_nearest_even. destruct l as [|[| |]]; try lia.
    destruct (Z.even m); lia. }
  split; [lia|]. rewrite !Zdigits2_log2 by lia.
  apply Z.add_le_mono_r, Z.log2_le_mono. assumption.
Qed.

(** Rounding a positive mantissa out of the underflow range gives a
    finite nonzero number or an infinity. *)
Lemma binary_round_aux_pos (sx : bool) (mx ex : Z) (lx : location) :
  0 < mx -> emin < Zdigits2 mx + ex ->
  binary_round_aux prec emax sx mx ex lx = S754_infinity sx
  \/ exists m e, binary_round_aux prec emax sx mx ex lx = S754_finite sx m e.
Proof.
  intros Hm Hd. unfold binary_round_aux.
  destruct (shr_fexp_pos mx ex lx Hm Hd) as [H1 G1].
  destruct (shr_fexp prec emax mx ex lx) as [mrs' e']. cbn [fst snd] in H1, G1.
  destruct (round_nearest_even_pos (shr_m mrs') (loc_of_shr_record mrs') H1)
    as [H2 G2].
  destruct (shr_fexp_pos (round_nearest_even (shr_m mrs') (loc_of_shr_record mrs'))
              e' loc_Exact H2) as [H3 _]; [lia|].
  destruct (shr_fexp prec emax _ e' loc_Exact) as [mrs'' e''].
  cbn [fst] in H3.
  destruct (shr_m mrs'') as [|m|m]; try lia.
  destruct (e'' <=? emax - prec); [right; eauto | left; reflexivity].
Qed.

(** The integer square root of a positive mantissa is positive and its
    exponent is not below the smallest one. *)
Lemma SFsqrt_core_binary_pos (m : positive) (e : Z) :
  emin <= e ->
  let '(q, e', l) := SFsqrt_core_binary prec emax (Z.pos m) e in
  0 < q /\ emin <= e'.
Proof.
  intros He. unfold SFsqrt_core_binary.
  set (e' := Z.min _ _).
  assert (He' : emin <= e' /\ 2 * e' <= e).
  { subst e'. unfold fexp, SpecFloat.emin, prec, emax in *.
    rewrite !Z.div2_div.
    pose proof (Z.div_mod e 2 ltac:(lia)).
    pose proof (Z.mod_pos_bound e 2 ltac:(lia)). lia. }
  destruct He' as [L U].
  assert (Hm' : 0 < match e - 2 * e' with
                    | Z.pos _ => Z.shiftl (Z.pos m) (e - 2 * e')
                    | 0 => Z.pos m
                    | Z.neg _ => 0
                    end).
  { destruct (e - 2 * e') eqn:Es; try lia.
    rewrite Z.shiftl_mul_pow2 by lia.
    apply Z.mul_pos_pos; [lia | apply Z.pow_pos_nonneg; lia]. }
  set (m' := match e - 2 * e' with | Z.pos _ => _ | 0 => _ | Z.neg _ => _ end) in *.
  pose proof (Z.sqrtrem_sqrt m') as Hq.
  destruct (Z.sqrtrem m') as [q r]. cbn [fst] in Hq. subst q.
  split; [apply Z.sqrt_pos; assumption | assumption].
Qed.

(** The binary64 square root of a positive number is positive. *)
Lemma sqrt_positive (f : float) :
  (0 <? f)%float = true -> (0 <? PrimFloat.sqrt f)%float = true.
Proof.
  rewrite !ltb_spec, sqrt_spec. change (Prim2SF 0%float) with (S754_zero false).
  pose proof (Prim2SF_valid f) as Hv.
  unfold SF64sqrt, SFsqrt.
  destruct (Prim2SF f) as [[|]|[|]| |[|] m e]; try discriminate; intros _;
    try reflexivity.
  assert (He : (emin <= e)%Z).
  { cbn [valid_binary] in Hv. unfold bounded, canonical_mantissa in Hv.
    apply andb_prop in Hv as [Hc _]. apply Z.eqb_eq in Hc.
    rewrite <- Hc. unfold fexp. apply Z.le_max_r. }
  pose proof (SFsqrt_core_binary_pos m e He) as Hcore.
  destruct (SFsqrt_core_binary prec emax (Z.pos m) e) as [[q e'] l].
  destruct Hcore as [Hq He'].
  destruct (binary_round_aux_pos false q e' l Hq) as [-> | (m' & e'' & ->)];
    try reflexivity.
  rewrite Zdigits2_log2 by assumption.
  pose proof (Z.log2_nonneg q). lia.
Qed.


(** A binary64 quotient by zero is an infinity or a NaN. *)
Lemma div_zero_nonfinite (x z : float) :
  (z =? 0)%float = true -> nonfinite (Prim2SF (x / z)) = true.
Proof.
  rewrite eqb_spec, div_spec. change (Prim2SF 0) with (S754_zero false).
  unfold SF64div, SFdiv.
  destruct (Prim2SF z) as [sz|[|]| |[|] mz ez]; try discriminate;
    intros _; destruct (Prim2SF x) as [sx|sx| |sx mx ex]; reflexivity.
Qed.

(** Infinities and NaN absorb products and sums. *)
Lemma mul_nonfinite (x y : float) :
  nonfinite (Prim2SF x) = true -> nonfinite (Prim2SF (x * y)) = true.
Proof.
  rewrite mul_spec. unfold SF64mul, SFmul.
  destruct (Prim2SF x) as [sx|sx| |sx mx ex]; try discriminate;
    intros _; destruct (Prim2SF y) as [sy|sy| |sy my ey]; reflexivity.
Qed.

Lemma add_nonfinite (x y : float) :
  nonfinite (Prim2SF x) = true -> nonfinite (Prim2SF (x + y)) = true.
Proof.
  rewrite add_spec. unfold SF64add, SFadd.
  destruct (Prim2SF x) as [sx|[|]| |sx mx ex]; try discriminate;
    intros _; destruct (Prim2SF y) as [sy|[|]| |sy my ey]; reflexivity.
Qed.

(** The square root of an infinity or a NaN is +inf or NaN. *)
Lemma sqrt_nonfinite (x : float) :
  nonfinite (Prim2SF x) = true ->
  PrimFloat.sqrt x = infinity \/ PrimFloat.sqrt x = nan.
Proof.
  intros H. rewrite <- (SF2Prim_Prim2SF (PrimFloat.sqrt x)), sqrt_spec.
  destruct (Prim2SF x) as [sx|[|]| |sx mx ex]; try discriminate;
    [right | left | right]; reflexivity.
Qed.

(** An infinity or a NaN is not finite. *)
Lemma nonfinite_is_finite (x : float) :
  nonfinite (Prim2SF x) = true -> is_finite x = false.
Proof.
  intros H. unfold is_finite, is_nan, is_infinity.
  rewrite !eqb_spec, abs_spec.
  change (Prim2SF infinity) with (S754_infinity false).
  destruct (Prim2SF x) as [sx|[|]| |sx mx ex]; try discriminate; reflexivity.
Qed.

(** The binary64 square root of a negative number is NaN. *)
Lemma sqrt_negative (f : float) :
  (f <? 0)%float = true -> PrimFloat.sqrt f = nan.
Proof.
  intros Hneg. rewrite ltb_spec in Hneg.
  rewrite <- (SF2Prim_Prim2SF (PrimFloat.sqrt f)), sqrt_spec.
  destruct (Prim2SF f) as [[|]|[|]| |[|] m e];
    try discriminate Hneg; reflexivity.
Qed.

(** Rounding keeps the sign it is given. *)
Lemma binary_round_aux_sign (sx : bool) (mx ex : Z) (lx : location) :
  binary_round_aux prec emax sx mx ex lx = S754_nan
  \/ binary_round_aux prec emax sx mx ex lx = S754_zero sx
  \/ binary_round_aux prec emax sx mx ex lx = S754_infinity sx
  \/ exists m e, binary_round_aux prec emax sx mx ex lx = S754_finite sx m e.
Proof.
  unfold binary_round_aux.
  destruct (shr_fexp prec emax mx ex lx) as [mrs' e'].
  destruct (shr_fexp prec emax _ e' loc_Exact) as [mrs'' e''].
  destruct (shr_m mrs'') as [|m|m].
  - right; left. reflexivity.
  - destruct (e'' <=? emax - prec)%Z.
    + right; right; right. exists m, e''. reflexivity.
    + right; right; left. reflexivity.
  - left. reflexivity.
Qed.

(** A binary64 square root is never negative. *)
Lemma sqrt_not_negative (f : float) : (PrimFloat.sqrt f <? 0)%float = false.
Proof.
  rewrite ltb_spec, sqrt_spec. unfold SF64sqrt, SFsqrt.
  change (Prim2SF 0) with (S754_zero false).
  destruct (Prim2SF f) as [[|]|[|]| |[|] m e]; try reflexivity.
  destruct (SFsqrt_core_binary prec emax (Z.pos m) e) as [[mz ez] lz].
  destruct (binary_round_aux_sign false mz ez lz)
    as [-> | [-> | [-> | (m' & e' & ->)]]]; reflexivity.
Qed.

End Rounding.

Section Runtime.
Import Binary64.

Lemma int_to_float_2 : int_to_float 2 = Ok 2%float.
Proof. vm_compute. reflexivity. Qed.

(** Rounding raises nothing but OverflowError. *)
Lemma rounded_raises (sf : spec_float) (e : exn) :
  rounded sf = Raise e -> e = OverflowError.
Proof. destruct sf; intros E; inversion E; reflexivity. Qed.

Lemma int_to_float_raises (z : Z) (e : exn) :
  int_to_float z = Raise e -> e = OverflowError.
Proof. apply rounded_raises. Qed.

Lemma int_truediv_raises (a b : Z) (e : exn) :
  int_truediv a b = Raise e ->
  e = OverflowError \/ (e = ZeroDivisionError /\ b = 0%Z).
Proof.
  unfold int_truediv. destruct (b =? 0)%Z eqn:Hb.
  - intros [= <-]. right. split; [reflexivity | apply Z.eqb_eq, Hb].
  - intros E. left. exact (rounded_raises _ _ E).
Qed.

Lemma is_np_float64 (v : pynum) : is_np v = true -> exists f, v = NpFloat64 f.
Proof. destruct v; try discriminate. eexists. reflexivity. Qed.

(** Splits on the conversions of int operands to binary64. *)
Ltac convert_ints :=
  repeat match goal with
  | |- context [int_to_float ?z] =>
      let E := fresh "E" in
      destruct (int_to_float z) eqn:E; cbn [bind];
      [| left; rewrite (int_to_float_raises _ _ E); reflexivity]
  end.

(** A product raises only OverflowError (an int too large for a float); its
    value is a NumPy float64 exactly when an operand is. *)
Lemma mul_cases (x y : pynum) :
  mul_num x y = Raise OverflowError
  \/ exists v, mul_num x y = Ok v /\ is_np v = is_np x || is_np y.
Proof.
  unfold mul_num, binop.
  destruct x as [a|f|f], y as [b|g|g]; cbn [bind to_float is_np orb];
    convert_ints; right; eexists; split; reflexivity.
Qed.

(** The same for a sum. *)
Lemma add_cases (x y : pynum) :
  add_num x y = Raise OverflowError
  \/ exists v, add_num x y = Ok v /\ is_np v = is_np x || is_np y.
Proof.
  unfold add_num, binop.
  destruct x as [a|f|f], y as [b|g|g]; cbn [bind to_float is_np orb];
    convert_ints; right; eexists; split; reflexivity.
Qed.

(** A quotient raises ZeroDivisionError only when both operands are Python
    numbers; its value is a float, a NumPy float64 exactly when an operand
    is. *)
Lemma truediv_cases (x y : pynum) :
  truediv_num x y = Raise OverflowError
  \/ (truediv_num x y = Raise ZeroDivisionError
      /\ is_np x || is_np y = false)
  \/ exists f,
       truediv_num x y
       = Ok (if is_np x || is_np y then NpFloat64 f else PyFloat f).
Proof.
  unfold truediv_num, binop.
  destruct x as [a|f|f], y as [b|g|g];
    cbn [bind to_float is_np orb]; convert_ints;
    try (right; right; eexists; reflexivity);
    try match goal with
    | |- context [float_truediv ?u ?v] =>
        unfold float_truediv; destruct (v =? 0)%float; cbn [bind];
        [right; left; split; reflexivity | right; right; eexists; reflexivity]
    end.
  destruct (int_truediv a b) as [q|e] eqn:E; cbn [bind].
  - right; right. eexists. reflexivity.
  - destruct (int_truediv_raises _ _ _ E) as [-> | [-> _]];
      [left | right; left; split]; reflexivity.
Qed.

(** Halving raises only OverflowError. *)
Lemma truediv_by_2 (x : pynum) :
  truediv_num x (PyInt 2) = Raise OverflowError
  \/ exists v, truediv_num x (PyInt 2) = Ok v /\ is_np v = is_np x.
Proof.
  unfold truediv_num, binop. destruct x as [a|f|f]; cbn [to_float];
    rewrite ?int_to_float_2; cbn [bind is_np orb].
  - destruct (int_truediv a 2) as [q|e] eqn:E; cbn [bind].
    + right. eexists. split; reflexivity.
    + destruct (int_truediv_raises _ _ _ E) as [-> | [_ H2]];
        [left; reflexivity | discriminate H2].
  - right. eexists. split; reflexivity.
  - right. eexists. split; reflexivity.
Qed.

(** Dividing a Python number by a Python zero raises. *)
Lemma truediv_builtin_zero (x y : pynum) :
  builtin x = true -> builtin y = true -> is_zero y = true ->
  truediv_num x y = Raise ZeroDivisionError
  \/ truediv_num x y = Raise OverflowError.
Proof.
  destruct x as [a|f|f], y as [b|g|g]; intros Hx Hy Hz; try discriminate;
    unfold truediv_num, binop; cbn [is_zero] in Hz;
    cbn [bind to_float is_np orb].
  - left. unfold int_truediv. rewrite Hz. reflexivity.
  - destruct (int_to_float a) as [c|e] eqn:E; cbn [bind].
    + left. unfold float_truediv. rewrite Hz. reflexivity.
    + right. rewrite (int_to_float_raises _ _ E). reflexivity.
  - left. apply Z.eqb_eq in Hz. subst b. reflexivity.
  - left. unfold float_truediv. rewrite Hz. reflexivity.
Qed.

(** An operation with a NumPy float64 operand is NumPy's operation on the
    binary64 values of the operands. *)
Lemma binop_np int_op float_op np_op (x y : pynum) :
  is_np x || is_np y = true ->
  binop int_op float_op np_op x y = Raise OverflowError
  \/ exists fx fy,
       to_float x = Ok fx /\ to_float y = Ok fy
       /\ binop int_op float_op np_op x y = Ok (NpFloat64 (np_op fx fy)).
Proof.
  intros Hnp. unfold binop.
  destruct x as [a|f|f], y as [b|g|g]; try discriminate Hnp;
    cbn [bind to_float is_np orb]; convert_ints;
    right; do 2 eexists; repeat split; reflexivity.
Qed.

Lemma mul_np (x y : pynum) :
  is_np x || is_np y = true ->
  mul_num x y = Raise OverflowError
  \/ exists fx fy,
       to_float x = Ok fx /\ to_float y = Ok fy
       /\ mul_num x y = Ok (NpFloat64 (fx * fy)).
Proof. apply binop_np. Qed.

Lemma add_np (x y : pynum) :
  is_np x || is_np y = true ->
  add_num x y = Raise OverflowError
  \/ exists fx fy,
       to_float x = Ok fx /\ to_float y = Ok fy
       /\ add_num x y = Ok (NpFloat64 (fx + fy)).
Proof. apply binop_np. Qed.

Lemma truediv_np (x y : pynum) :
  is_np x || is_np y = true ->
  truediv_num x y = Raise OverflowError
  \/ exists fx fy,
       to_float x = Ok fx /\ to_float y = Ok fy
       /\ truediv_num x y = Ok (NpFloat64 (fx / fy)).
Proof. apply binop_np. Qed.

(** The binary64 value of a zero operand is a zero. *)
Lemma to_float_zero (v : pynum) (f : float) :
  is_zero v = true -> to_float v = Ok f -> (f =? 0)%float = true.
Proof.
  destruct v as [z|g|g]; cbn [is_zero to_float]; intros Hz E.
  - apply Z.eqb_eq in Hz. subst z. injection E as <-. reflexivity.
  - injection E as <-. exact Hz.
  - injection E as <-. exact Hz.
Qed.

(** Runs the next operation of a function body: either it raises
    OverflowError, which ends the call, or it yields a value. *)
Ltac next_op lem :=
  let E := fresh "E" in let T := fresh "T" in let v := fresh "t" in
  destruct lem as [E | (v & E & T)]; rewrite E; cbn [bind];
  [right; reflexivity |].

(** The same for an operation that has a NumPy float64 operand. *)
Ltac next_np_op lem :=
  let E := fresh "E" in let X := fresh "X" in let Y := fresh "Y" in
  let fx := fresh "fx" in let fy := fresh "fy" in
  destruct lem as [E | (fx & fy & X & Y & E)];
  [ | | rewrite E; cbn [bind] ];
  [ | rewrite E; right; reflexivity | ].

(** C3, as stated, fails when the zero is a NumPy float64, the type
    holding_cost has in the notebook's sweep
    ([holding_cost = 0.25 * unit_cost], [unit_cost] from [np.linspace]):
    the division yields inf and the call returns inf.  The same happens with
    a Python 0 when annual_demand is a NumPy float64. *)
Lemma Compute_EOQ_zero_float64_holding_cost :
  is_zero (NpFloat64 0) = true
  /\ Compute_EOQ (PyInt 1000) (PyInt 25) (NpFloat64 0)
     = Ok (NpFloat64 infinity)
  /\ is_zero (PyInt 0) = true
  /\ Compute_EOQ (NpFloat64 1000) (PyInt 25) (PyInt 0)
     = Ok (NpFloat64 infinity).
Proof. repeat split; vm_compute; reflexivity. Qed.

(** C4, as stated, fails in the pipeline itself: Compute_EOQ returns a NumPy
    float64, so an EOQ of 0 coming from it (annual_demand = 0) is
    [np.float64(0.0)], and Compute_EOQ_TAC then divides without raising: it
    returns NaN for annual_demand = 0 and inf for annual_demand = 1000.  A
    Python 0 does not raise either when annual_demand is a NumPy float64. *)
Lemma Compute_EOQ_TAC_zero_float64_EOQ :
  Compute_EOQ (PyInt 0) (PyInt 25) (PyInt 2) = Ok (NpFloat64 0)
  /\ is_zero (NpFloat64 0) = true
  /\ Compute_EOQ_TAC (NpFloat64 0) (PyInt 0) (PyInt 25) (PyInt 2) (PyInt 8)
     = Ok (NpFloat64 nan)
  /\ Compute_EOQ_TAC (NpFloat64 0) (PyInt 1000) (PyInt 25) (PyInt 2) (PyInt 8)
     = Ok (NpFloat64 infinity)
  /\ Compute_EOQ_TAC (PyInt 0) (NpFloat64 1000) (PyInt 25) (PyInt 2) (PyInt 8)
     = Ok (NpFloat64 infinity).
Proof. repeat split; vm_compute; reflexivity. Qed.

(** The value Compute_EOQ returns is always a NumPy float64. *)
Lemma Compute_EOQ_returns_float64 (a o h r : pynum) :
  Compute_EOQ a o h = Ok r -> exists f, r = NpFloat64 f.
Proof.
  unfold Compute_EOQ. cbn [lit py_mul py_truediv np_sqrt pynum_Number].
  destruct (mul_num (PyInt 2) a) as [t1|e]; [cbn [bind] | discriminate].
  destruct (mul_num t1 o) as [t2|e]; [cbn [bind] | discriminate].
  destruct (truediv_num t2 h) as [t3|e]; [cbn [bind] | discriminate].
  unfold sqrt_num. destruct t3 as [z|f|f].
  - destruct ((- 2 ^ 63 <=? z)%Z && (z <? 2 ^ 64)%Z); [|discriminate].
    destruct (int_to_float z); cbn [bind]; [|discriminate].
    intros [= <-]. eexists. reflexivity.
  - cbn [bind]. intros [= <-]. eexists. reflexivity.
  - cbn [bind]. intros [= <-]. eexists. reflexivity.
Qed.

(** A quotient is a float: a Python float or a NumPy float64. *)
Lemma truediv_not_int (x y r : pynum) :
  truediv_num x y = Ok r -> exists f, r = PyFloat f \/ r = NpFloat64 f.
Proof.
  intros E.
  destruct (truediv_cases x y) as [E' | [[E' _] | [f E']]];
    rewrite E' in E; try discriminate E.
  injection E as <-. exists f. destruct (is_np x || is_np y); auto.
Qed.

(** On float operands the radicand is the binary64 value of
    [2 * a * o / h]; it is defined unless a zero divisor meets Python
    operands only. *)
Lemma radicand_floats (a o h : pynum) (fa fo fh : float) :
  as_float a = Some fa -> as_float o = Some fo -> as_float h = Some fh ->
  is_zero h && builtin a && builtin o && builtin h = false ->
  exists r,
    radicand a o h = Ok r /\ as_float r = Some (2 * fa * fo / fh)%float.
Proof.
  intros Ha Ho Hh Hz. unfold radicand.
  cbn [lit py_mul py_truediv pynum_Number].
  destruct a as [?|a|a], o as [?|o|o], h as [?|h|h];
    try discriminate;
    injection Ha as <-; injection Ho as <-; injection Hh as <-;
    cbn [is_zero builtin is_np negb] in Hz;
    rewrite ?andb_true_r, ?andb_false_r in Hz;
    unfold mul_num, truediv_num, binop, float_truediv;
    cbn [to_float]; rewrite int_to_float_2; cbn [bind is_np orb to_float];
    rewrite ?Hz; cbn [bind]; eexists; split; reflexivity.
Qed.

(** The formula in binary64, on float operands: the call does not raise
    and returns, as a NumPy float64, the rounded square root of the rounded
    quotient. *)
Lemma Compute_EOQ_floats (a o h : pynum) (fa fo fh : float) :
  as_float a = Some fa -> as_float o = Some fo -> as_float h = Some fh ->
  is_zero h && builtin a && builtin o && builtin h = false ->
  Compute_EOQ a o h = Ok (NpFloat64 (PrimFloat.sqrt (2 * fa * fo / fh))).
Proof.
  intros Ha Ho Hh Hz.
  destruct (radicand_floats a o h fa fo fh Ha Ho Hh Hz) as (r & Hr & Hv).
  rewrite Compute_EOQ_radicand, Hr. cbn [bind np_sqrt pynum_Number].
  destruct r; try discriminate; injection Hv as ->; reflexivity.
Qed.

(** On Python ints a zero holding_cost raises ZeroDivisionError. *)
Lemma Compute_EOQ_zero_holding_cost_ints (a o : Z) :
  Compute_EOQ (PyInt a) (PyInt o) (PyInt 0) = Raise ZeroDivisionError.
Proof. reflexivity. Qed.

(** On Python floats a zero holding_cost raises ZeroDivisionError. *)
Lemma Compute_EOQ_zero_holding_cost_floats (a o h : float) :
  (h =? 0)%float = true ->
  Compute_EOQ (PyFloat a) (PyFloat o) (PyFloat h) = Raise ZeroDivisionError.
Proof.
  intros Hz. unfold Compute_EOQ.
  cbn [lit py_mul py_truediv pynum_Number].
  unfold mul_num, truediv_num, binop, float_truediv.
  cbn [to_float]. rewrite int_to_float_2. cbn [bind is_np orb to_float].
  rewrite Hz. reflexivity.
Qed.

(** The TAC formula in binary64, on float operands: unless a zero EOQ meets a
    Python annual_demand, the call does not raise and returns the binary64
    value of the formula. *)
Lemma Compute_EOQ_TAC_floats (EOQ a o h u : pynum) (fQ fa fo fh fu : float) :
  as_float EOQ = Some fQ -> as_float a = Some fa -> as_float o = Some fo ->
  as_float h = Some fh -> as_float u = Some fu ->
  is_zero EOQ && builtin EOQ && builtin a = false ->
  exists TAC,
    Compute_EOQ_TAC EOQ a o h u = Ok TAC
    /\ as_float TAC = Some (fa / fQ * fo + fQ / 2 * fh + fu * fa)%float.
Proof.
  intros HQ Ha Ho Hh Hu Hz. unfold Compute_EOQ_TAC.
  cbn [lit py_mul py_add py_truediv pynum_Number].
  assert (H2 : (2 =? 0)%float = false) by reflexivity.
  destruct EOQ as [?|Q|Q], a as [?|a|a]; try discriminate;
    injection HQ as <-; injection Ha as <-;
    cbn [is_zero builtin is_np negb] in Hz;
    rewrite ?andb_true_r, ?andb_false_r in Hz;
    destruct o as [?|o|o], h as [?|h|h], u as [?|u|u]; try discriminate;
    injection Ho as <-; injection Hh as <-; injection Hu as <-;
    unfold mul_num, add_num, truediv_num, binop, float_truediv;
    cbn [to_float]; rewrite ?int_to_float_2; cbn [bind is_np orb to_float];
    rewrite ?Hz, ?H2; cbn [bind]; eexists; split; reflexivity.
Qed.

(** Whatever the operands, Compute_EOQ never returns a negative number. *)
Lemma Compute_EOQ_never_negative (a o h r : pynum) :
  Compute_EOQ a o h = Ok r -> is_negative r = false.
Proof.
  unfold Compute_EOQ. cbn [lit py_mul py_truediv np_sqrt pynum_Number].
  destruct (mul_num (PyInt 2) a) as [t1|e]; [cbn [bind] | discriminate].
  destruct (mul_num t1 o) as [t2|e]; [cbn [bind] | discriminate].
  destruct (truediv_num t2 h) as [t3|e]; [cbn [bind] | discriminate].
  unfold sqrt_num. destruct t3 as [z|f|f].
  - destruct ((- 2 ^ 63 <=? z)%Z && (z <? 2 ^ 64)%Z); [|discriminate].
    destruct (int_to_float z); cbn [bind]; [|discriminate].
    intros [= <-]. apply sqrt_not_negative.
  - cbn [bind]. intros [= <-]. apply sqrt_not_negative.
  - cbn [bind]. intros [= <-]. apply sqrt_not_negative.
Qed.

(** Positivity in binary64, on float operands: whenever the rounded
    radicand is positive, Compute_EOQ returns a positive float64. *)
Lemma Compute_EOQ_floats_positive (a o h : pynum) (fa fo fh : float) :
  as_float a = Some fa -> as_float o = Some fo -> as_float h = Some fh ->
  is_zero h && builtin a && builtin o && builtin h = false ->
  (0 <? 2 * fa * fo / fh)%float = true ->
  exists EOQ,
    Compute_EOQ a o h = Ok (NpFloat64 EOQ) /\ (0 <? EOQ)%float = true.
Proof.
  intros Ha Ho Hh Hz Hpos.
  eexists. split; [apply (Compute_EOQ_floats a o h fa fo fh); assumption|].
  apply sqrt_positive. exact Hpos.
Qed.

(** C7. In the scenario annual_demand = 1000, order_cost = 25,
    holding_cost = 2, unit_cost = 8: Compute_EOQ(1000, 25, 2) is the
    binary64 number 158.11388300841898, hence within 1e-9 of it, and
    Compute_EOQ_TAC(158.11388300841898, 1000, 25, 2, 8) is
    8316.227766016838, hence within 1e-6 of it; the pipeline of the notebook
    (the float64 EOQ passed on) gives the same TAC; and the exact values of
    both formulas lie within the same tolerances. *)
Theorem notebook_scenario :
  (exists EOQ,
     Compute_EOQ (PyInt 1000) (PyInt 25) (PyInt 2) = Ok (NpFloat64 EOQ)
     /\ EOQ = 158.11388300841898%float
     /\ within 1e-9 EOQ 158.11388300841898 = true)
  /\ (exists TAC,
        Compute_EOQ_TAC (PyFloat 158.11388300841898)
                        (PyInt 1000) (PyInt 25) (PyInt 2) (PyInt 8)
        = Ok (PyFloat TAC)
        /\ TAC = 8316.227766016838%float
        /\ within 1e-6 TAC 8316.227766016838 = true)
  /\ (EOQ <- Compute_EOQ (PyInt 1000) (PyInt 25) (PyInt 2) ;;
      Compute_EOQ_TAC EOQ (PyInt 1000) (PyInt 25) (PyInt 2) (PyInt 8))
     = Ok (NpFloat64 8316.227766016838)
  /\ (exists Q,
        Compute_EOQ (Exact.Real 1000) (Exact.Real 25) (Exact.Real 2)
        = Ok (Exact.Real Q)
        /\ (Rabs (Q - 158.11388300841898) <= 1e-9)%R)
  /\ (exists T,
        Compute_EOQ_TAC (Exact.Real 158.11388300841898) (Exact.Real 1000)
                        (Exact.Real 25) (Exact.Real 2) (Exact.Real 8)
        = Ok (Exact.Real T)
        /\ (Rabs (T - 8316.227766016838) <= 1e-6)%R).
Proof.
  split; [|split; [|split; [|split]]].
  - eexists. split; [vm_compute; reflexivity|]. split; vm_compute; reflexivity.
  - eexists. split; [vm_compute; reflexivity|]. split; vm_compute; reflexivity.
  - vm_compute. reflexivity.
  - exact exact_EOQ_scenario.
  - exact exact_TAC_scenario.
Qed.

End Runtime.

(** * Exact arithmetic: the order quantity as an optimum *)

Section Optimum.
Import Exact.
Local Open Scope R_scope.

(** At the exact EOQ the ordering cost and the holding cost are equal. *)
Lemma balance_at_EOQ (a o h : R) :
  0 < a -> 0 < o -> 0 < h ->
  a / sqrt (2 * a * o / h) * o = sqrt (2 * a * o / h) / 2 * h.
Proof.
  intros Ha Ho Hh.
  pose proof (radicand_pos _ _ _ Ha Ho Hh) as Hr.
  pose proof (sqrt_radicand_sqr _ _ _ Ha Ho Hh) as Hsq.
  pose proof (sqrt_lt_R0 _ Hr) as HQ.
  set (Q := sqrt (2 * a * o / h)) in *.
  apply Rmult_eq_reg_r with (r := Q); [|lra].
  replace (a / Q * o * Q) with (a * o) by (field; lra).
  replace (Q / 2 * h * Q) with (Q * Q * h / 2) by field.
  rewrite Hsq. field. lra.
Qed.

(** The cost of any positive order quantity exceeds the cost at the EOQ by
    [h / (2 * Q) * (Q - EOQ)^2]. *)
Lemma cost_gap (a o h u Q : R) :
  0 < a -> 0 < o -> 0 < h -> 0 < Q ->
  (a / Q * o + Q / 2 * h + u * a)
  - (a / sqrt (2 * a * o / h) * o + sqrt (2 * a * o / h) / 2 * h + u * a)
  = h / (2 * Q) * ((Q - sqrt (2 * a * o / h)) * (Q - sqrt (2 * a * o / h))).
Proof.
  intros Ha Ho Hh HQ.
  pose proof (radicand_pos _ _ _ Ha Ho Hh) as Hr.
  pose proof (sqrt_radicand_sqr _ _ _ Ha Ho Hh) as Hsq.
  pose proof (sqrt_lt_R0 _ Hr) as HE.
  rewrite (balance_at_EOQ a o h Ha Ho Hh).
  set (E := sqrt (2 * a * o / h)) in *.
  assert (Hao : a * o = E * E * h / 2) by (rewrite Hsq; field; lra).
  replace (a / Q * o) with (a * o / Q) by (field; lra).
  rewrite Hao. field. lra.
Qed.

(** X1. The order quantity that Compute_EOQ returns minimises the total
    annual cost: for positive annual_demand, order_cost and holding_cost,
    Compute_EOQ_TAC at the EOQ is at most Compute_EOQ_TAC at any positive
    order quantity Q, and only Q = EOQ attains that cost (exact real
    arithmetic). *)
Theorem EOQ_minimizes_TAC
    (annual_demand order_cost holding_cost unit_cost Q : R) :
  0 < annual_demand -> 0 < order_cost -> 0 < holding_cost -> 0 < Q ->
  exists EOQ TAC_EOQ TAC_Q,
    Compute_EOQ (Real annual_demand) (Real order_cost) (Real holding_cost)
    = Ok (Real EOQ)
    /\ Compute_EOQ_TAC (Real EOQ) (Real annual_demand) (Real order_cost)
                       (Real holding_cost) (Real unit_cost)
       = Ok (Real TAC_EOQ)
    /\ Compute_EOQ_TAC (Real Q) (Real annual_demand) (Real order_cost)
                       (Real holding_cost) (Real unit_cost)
       = Ok (Real TAC_Q)
    /\ TAC_EOQ <= TAC_Q
    /\ (TAC_Q = TAC_EOQ -> Q = EOQ).
Proof.
  intros Ha Ho Hh HQ.
  pose proof (radicand_pos _ _ _ Ha Ho Hh) as Hr.
  pose proof (sqrt_lt_R0 _ Hr) as HE.
  pose proof (cost_gap annual_demand order_cost holding_cost unit_cost Q
                Ha Ho Hh HQ) as Hgap.
  set (E := sqrt (2 * annual_demand * order_cost / holding_cost)) in *.
  assert (Hc : 0 < holding_cost / (2 * Q)).
  { apply Rdiv_lt_0_compat; lra. }
  do 3 eexists.
  split; [apply Compute_EOQ_pos; assumption|].
  split; [apply Compute_EOQ_TAC_pos; exact HE|].
  split; [apply Compute_EOQ_TAC_pos; exact HQ|].
  split.
  - pose proof (Rle_0_sqr (Q - E)) as Hsq. unfold Rsqr in Hsq.
    pose proof (Rmult_le_pos _ _ (Rlt_le _ _ Hc) Hsq). fold E. lra.
  - fold E. intros Heq.
    assert (Hz : holding_cost / (2 * Q) * ((Q - E) * (Q - E)) = 0) by lra.
    apply Rmult_integral in Hz as [Hz | Hz]; [lra|].
    apply Rmult_integral in Hz. lra.
Qed.

Lemma EOQ_minimizes_TAC_witness :
  exists EOQ TAC_EOQ TAC_Q,
    Compute_EOQ (Real 1000) (Real 25) (Real 2) = Ok (Real EOQ)
    /\ Compute_EOQ_TAC (Real EOQ) (Real 1000) (Real 25) (Real 2) (Real 8)
       = Ok (Real TAC_EOQ)
    /\ Compute_EOQ_TAC (Real 200) (Real 1000) (Real 25) (Real 2) (Real 8)
       = Ok (Real TAC_Q)
    /\ TAC_EOQ <= TAC_Q
    /\ (TAC_Q = TAC_EOQ -> 200 = EOQ).
Proof. apply (EOQ_minimizes_TAC 1000 25 2 8 200); lra. Defined.

(** X2. The two-stage computation in closed form: for positive
    annual_demand, order_cost and holding_cost it yields
    EOQ = sqrt(2 * annual_demand * order_cost / holding_cost) and
    TAC = sqrt(2 * annual_demand * order_cost * holding_cost)
    + unit_cost * annual_demand (exact real arithmetic). *)
Theorem EOQ_and_TAC_closed_form
    (annual_demand order_cost holding_cost unit_cost : R) :
  0 < annual_demand -> 0 < order_cost -> 0 < holding_cost ->
  EOQ_and_TAC (Real annual_demand) (Real order_cost) (Real holding_cost)
              (Real unit_cost)
  = Ok (Real (sqrt (2 * annual_demand * order_cost / holding_cost)),
        Real (sqrt (2 * annual_demand * order_cost * holding_cost)
              + unit_cost * annual_demand)).
Proof.
  intros Ha Ho Hh.
  pose proof (radicand_pos _ _ _ Ha Ho Hh) as Hr.
  pose proof (sqrt_lt_R0 _ Hr) as HE.
  unfold EOQ_and_TAC.
  rewrite Compute_EOQ_pos by assumption. cbn [bind].
  rewrite Compute_EOQ_TAC_pos by exact HE. cbn [bind].
  rewrite (balance_at_EOQ _ _ _ Ha Ho Hh).
  do 4 f_equal.
  replace (2 * annual_demand * order_cost * holding_cost)
    with (2 * annual_demand * order_cost / holding_cost
          * (holding_cost * holding_cost)) by (field; lra).
  rewrite sqrt_mult_alt by lra.
  rewrite sqrt_square by lra. field.
Qed.

Lemma EOQ_and_TAC_closed_form_witness :
  EOQ_and_TAC (Real 1000) (Real 25) (Real 2) (Real 8)
  = Ok (Real (sqrt (2 * 1000 * 25 / 2)),
        Real (sqrt (2 * 1000 * 25 * 2) + 8 * 1000)).
Proof. apply (EOQ_and_TAC_closed_form 1000 25 2 8); lra. Defined.

(** X3. Compute_EOQ is monotone: on positive operands the EOQ does not
    decrease when annual_demand or order_cost grows or holding_cost shrinks,
    and it increases strictly as soon as one of the three changes strictly
    (exact real arithmetic). *)
Theorem Compute_EOQ_monotone (a1 o1 h1 a2 o2 h2 : R) :
  0 < a1 -> 0 < o1 -> 0 < h2 ->
  a1 <= a2 -> o1 <= o2 -> h2 <= h1 ->
  exists Q1 Q2,
    Compute_EOQ (Real a1) (Real o1) (Real h1) = Ok (Real Q1)
    /\ Compute_EOQ (Real a2) (Real o2) (Real h2) = Ok (Real Q2)
    /\ Q1 <= Q2
    /\ (a1 < a2 \/ o1 < o2 \/ h2 < h1 -> Q1 < Q2).
Proof.
  intros Ha Ho Hh Haa Hoo Hhh.
  assert (Ha2 : 0 < a2) by lra. assert (Ho2 : 0 < o2) by lra.
  assert (Hh1 : 0 < h1) by lra.
  pose proof (radicand_pos _ _ _ Ha Ho Hh1) as Hr1.
  assert (Hn : a1 * o1 <= a2 * o2) by (apply Rmult_le_compat; lra).
  assert (Hi : / h1 <= / h2) by (apply Rinv_le_contravar; lra).
  assert (Hi1 : 0 < / h1) by (apply Rinv_0_lt_compat; lra).
  assert (Hp : 0 < a1 * o1) by (apply Rmult_lt_0_compat; lra).
  assert (Hle : 2 * a1 * o1 / h1 <= 2 * a2 * o2 / h2).
  { unfold Rdiv. apply Rmult_le_compat; lra. }
  do 2 eexists.
  split; [apply Compute_EOQ_pos; assumption|].
  split; [apply Compute_EOQ_pos; assumption|].
  split; [apply sqrt_le_1_alt; exact Hle|].
  intros Hs. apply sqrt_lt_1_alt. split; [lra|].
  unfold Rdiv. destruct Hs as [Hs | [Hs | Hs]].
  - assert (a1 * o1 < a2 * o2).
    { apply Rle_lt_trans with (a1 * o2).
      - apply Rmult_le_compat_l; lra.
      - apply Rmult_lt_compat_r; lra. }
    apply Rlt_le_trans with (2 * a2 * o2 * / h1).
    + apply Rmult_lt_compat_r; lra.
    + apply Rmult_le_compat_l; [|lra].
      assert (0 < a2 * o2) by (apply Rmult_lt_0_compat; lra). lra.
  - assert (a1 * o1 < a2 * o2).
    { apply Rlt_le_trans with (a1 * o2).
      - apply Rmult_lt_compat_l; lra.
      - apply Rmult_le_compat_r; lra. }
    apply Rlt_le_trans with (2 * a2 * o2 * / h1).
    + apply Rmult_lt_compat_r; lra.
    + apply Rmult_le_compat_l; [|lra].
      assert (0 < a2 * o2) by (apply Rmult_lt_0_compat; lra). lra.
  - assert (/ h1 < / h2).
    { apply Rinv_lt_contravar; [apply Rmult_lt_0_compat|]; lra. }
    apply Rle_lt_trans with (2 * a2 * o2 * / h1).
    + apply Rmult_le_compat_r; lra.
    + apply Rmult_lt_compat_l; [|lra].
      assert (0 < a2 * o2) by (apply Rmult_lt_0_compat; lra). lra.
Qed.

Lemma Compute_EOQ_monotone_witness :
  exists Q1 Q2,
    Compute_EOQ (Real 1000) (Real 25) (Real 2) = Ok (Real Q1)
    /\ Compute_EOQ (Real 1200) (Real 25) (Real 1) = Ok (Real Q2)
    /\ Q1 <= Q2
    /\ (1000 < 1200 \/ 25 < 25 \/ 1 < 2 -> Q1 < Q2).
Proof. apply (Compute_EOQ_monotone 1000 25 2 1200 25 1); lra. Defined.

(** X4. Square-root law: on positive operands, multiplying annual_demand or
    order_cost by t > 0 multiplies the EOQ by sqrt(t), and multiplying
    holding_cost by t divides it by sqrt(t) (exact real arithmetic). *)
Theorem square_root_law (a o h t : R) :
  0 < a -> 0 < o -> 0 < h -> 0 < t ->
  exists Q,
    Compute_EOQ (Real a) (Real o) (Real h) = Ok (Real Q)
    /\ Compute_EOQ (Real (t * a)) (Real o) (Real h) = Ok (Real (sqrt t * Q))
    /\ Compute_EOQ (Real a) (Real (t * o)) (Real h) = Ok (Real (sqrt t * Q))
    /\ Compute_EOQ (Real a) (Real o) (Real (t * h)) = Ok (Real (Q / sqrt t)).
Proof.
  intros Ha Ho Hh Ht.
  pose proof (radicand_pos _ _ _ Ha Ho Hh) as Hr.
  pose proof (sqrt_lt_R0 _ Ht) as Hst.
  assert (Hta : 0 < t * a) by (apply Rmult_lt_0_compat; assumption).
  assert (Hto : 0 < t * o) by (apply Rmult_lt_0_compat; assumption).
  assert (Hth : 0 < t * h) by (apply Rmult_lt_0_compat; assumption).
  eexists. split; [apply Compute_EOQ_pos; assumption|].
  rewrite !Compute_EOQ_pos by assumption.
  rewrite <- sqrt_mult_alt by lra.
  repeat split; do 2 f_equal.
  - f_equal. field. lra.
  - f_equal. field. lra.
  - apply Rmult_eq_reg_r with (r := sqrt t); [|lra].
    replace (sqrt (2 * a * o / h) / sqrt t * sqrt t)
      with (sqrt (2 * a * o / h)) by (field; lra).
    rewrite <- sqrt_mult_alt.
    + f_equal. field. lra.
    + apply Rlt_le, radicand_pos; assumption.
Qed.

Lemma square_root_law_witness :
  exists Q,
    Compute_EOQ (Real 1000) (Real 25) (Real 2) = Ok (Real Q)
    /\ Compute_EOQ (Real (4 * 1000)) (Real 25) (Real 2)
       = Ok (Real (sqrt 4 * Q))
    /\ Compute_EOQ (Real 1000) (Real (4 * 25)) (Real 2)
       = Ok (Real (sqrt 4 * Q))
    /\ Compute_EOQ (Real 1000) (Real 25) (Real (4 * 2))
       = Ok (Real (Q / sqrt 4)).
Proof. apply (square_root_law 1000 25 2 4); lra. Defined.

End Optimum.

(** * Binary64 rounding: a nonzero int is a nonzero float *)

Section Conversion.
Import Binary64.
Local Open Scope Z_scope.

(** The target exponent grows with the magnitude. *)
Lemma fexp_mono (x y : Z) : x <= y -> fexp prec emax x <= fexp prec emax y.
Proof. unfold fexp, SpecFloat.emin, prec, emax. lia. Qed.

(** A shift to the target exponent leaves a mantissa that fits it. *)
Lemma shr_fexp_canonical (m e : Z) (l : location) :
  0 < m -> emin < Zdigits2 m + e -> e <= fexp prec emax (Zdigits2 m + e) ->
  fexp prec emax (Zdigits2 (shr_m (fst (shr_fexp prec emax m e l)))
                  + snd (shr_fexp prec emax m e l))
  = snd (shr_fexp prec emax m e l).
Proof.
  intros Hm Hd He.
  destruct (shr_fexp_pos m e l Hm Hd) as [_ Hsum]. rewrite Hsum.
  unfold shr_fexp, shr.
  destruct (fexp prec emax (Zdigits2 m + e) - e) as [|n|n] eqn:En;
    cbn [fst snd]; lia.
Qed.

(** A finite result of rounding is a valid binary64 number, whenever the
    mantissa given does not lie above its target exponent. *)
Lemma binary_round_aux_bounded (sx s : bool) (mx ex : Z) (lx : location)
    (m : positive) (e : Z) :
  0 < mx -> emin < Zdigits2 mx + ex ->
  ex <= fexp prec emax (Zdigits2 mx + ex) ->
  binary_round_aux prec emax sx mx ex lx = S754_finite s m e ->
  SpecFloat.bounded prec emax m e = true.
Proof.
  intros Hm Hd He. unfold binary_round_aux.
  destruct (shr_fexp_pos mx ex lx Hm Hd) as [H1 G1].
  pose proof (shr_fexp_canonical mx ex lx Hm Hd He) as C1.
  destruct (shr_fexp prec emax mx ex lx) as [mrs' e'].
  cbn [fst snd] in H1, G1, C1.
  destruct (round_nearest_even_pos (shr_m mrs') (loc_of_shr_record mrs') H1)
    as [H2 G2].
  set (m1 := round_nearest_even (shr_m mrs') (loc_of_shr_record mrs')) in *.
  assert (Hd1 : emin < Zdigits2 m1 + e') by lia.
  assert (He1 : e' <= fexp prec emax (Zdigits2 m1 + e')).
  { rewrite <- C1 at 1. apply fexp_mono. lia. }
  pose proof (shr_fexp_canonical m1 e' loc_Exact H2 Hd1 He1) as C2.
  destruct (shr_fexp prec emax m1 e' loc_Exact) as [mrs'' e''].
  cbn [fst snd] in C2.
  destruct (shr_m mrs'') as [|m2|m2]; try discriminate.
  destruct (e'' <=? emax - prec) eqn:Hb; [|discriminate].
  intros [= _ <- <-]. unfold SpecFloat.bounded, canonical_mantissa.
  cbn [Zdigits2] in C2. rewrite C2, Z.eqb_refl, Hb. reflexivity.
Qed.

(** Doubling a number [d] times adds [d] binary digits. *)
Lemma digits2_pos_iter_xO (m d : positive) :
  Z.pos (digits2_pos (Pos.iter xO m d)) = Z.pos (digits2_pos m) + Z.pos d.
Proof.
  induction d as [|d IH] using Pos.peano_ind.
  - cbn. lia.
  - rewrite Pos.iter_succ. cbn [digits2_pos]. lia.
Qed.

(** Rounding a mantissa that does not lie above its target exponent gives
    an infinity or a valid nonzero number. *)
Lemma binary_round_aux_valid (sx : bool) (mx ex : Z) :
  0 < mx -> emin < Zdigits2 mx + ex ->
  ex <= fexp prec emax (Zdigits2 mx + ex) ->
  binary_round_aux prec emax sx mx ex loc_Exact = S754_infinity sx
  \/ exists m e,
       binary_round_aux prec emax sx mx ex loc_Exact = S754_finite sx m e
       /\ SpecFloat.bounded prec emax m e = true.
Proof.
  intros Hm Hd He.
  destruct (binary_round_aux_pos sx mx ex loc_Exact Hm Hd)
    as [E | (m & e & E)]; [left; exact E | right].
  exists m, e. split; [exact E|].
  exact (binary_round_aux_bounded sx sx mx ex loc_Exact m e Hm Hd He E).
Qed.

(** The float of a nonzero int is a valid nonzero number, unless the int is
    too large. *)
Lemma binary_round_int (sx : bool) (p : positive) :
  binary_round prec emax sx p 0 = S754_infinity sx
  \/ exists m e,
       binary_round prec emax sx p 0 = S754_finite sx m e
       /\ SpecFloat.bounded prec emax m e = true.
Proof.
  unfold binary_round, shl_align.
  pose proof (Zdigits2_log2 (Z.pos p) eq_refl) as Hlog.
  pose proof (Z.log2_nonneg (Z.pos p)) as Hnn.
  cbn [Zdigits2] in Hlog.
  set (ez := fexp prec emax (Z.pos (digits2_pos p) + 0)).
  assert (Hez : ez = fexp prec emax (Z.pos (digits2_pos p) + 0)) by reflexivity.
  destruct (ez - 0) as [|d|d] eqn:Ed.
  - apply binary_round_aux_valid; cbn [Zdigits2];
      [reflexivity | unfold SpecFloat.emin, prec, emax; lia | lia].
  - apply binary_round_aux_valid; cbn [Zdigits2];
      [reflexivity | unfold SpecFloat.emin, prec, emax; lia | lia].
  - assert (Hdig : Zdigits2 (Z.pos (Pos.iter xO p d)) + ez
                   = Z.pos (digits2_pos p) + 0).
    { cbn [Zdigits2]. rewrite digits2_pos_iter_xO. lia. }
    apply binary_round_aux_valid; rewrite ?Hdig;
      [reflexivity | unfold SpecFloat.emin, prec, emax; lia | lia].
Qed.

Lemma Ok_inj {A : Type} (a b : A) : Ok a = Ok b -> a = b.
Proof. intros H. inversion H. reflexivity. Qed.

(** [float(z) != 0] for an int [z != 0]. *)
Lemma int_to_float_nonzero (z : Z) (f : float) :
  z <> 0 -> int_to_float z = Ok f -> (f =? 0)%float = false.
Proof.
  intros Hz. unfold int_to_float, binary_normalize.
  destruct z as [|p|p]; [contradiction | |].
  - destruct (binary_round_int false p) as [E | (m & e & E & Hb)];
      rewrite E; unfold rounded; [discriminate|].
    intros H. apply Ok_inj in H. subst f.
    rewrite eqb_spec, Prim2SF_SF2Prim by exact Hb. reflexivity.
  - destruct (binary_round_int true p) as [E | (m & e & E & Hb)];
      rewrite E; unfold rounded; [discriminate|].
    intros H. apply Ok_inj in H. subst f.
    rewrite eqb_spec, Prim2SF_SF2Prim by exact Hb. reflexivity.
Qed.

End Conversion.

(** * Binary64: every outcome of the two functions and of their callers *)

Section Outcomes.
Import Binary64.




(** The sign tests on a square root are the sign tests on its argument. *)
Lemma sqrt_positive_iff (f : float) :
  (0 <? PrimFloat.sqrt f)%float = (0 <? f)%float.
Proof.
  destruct (0 <? f)%float eqn:Hf; [apply sqrt_positive; exact Hf|].
  rewrite ltb_spec in *. rewrite sqrt_spec.
  change (Prim2SF 0%float) with (S754_zero false) in *.
  unfold SF64sqrt, SFsqrt.
  destruct (Prim2SF f) as [[|]|[|]| |[|] m e]; try discriminate; reflexivity.
Qed.

Lemma sqrt_zero_iff (f : float) :
  (PrimFloat.sqrt f =? 0)%float = (f =? 0)%float.
Proof.
  pose proof (sqrt_positive f) as Hpos.
  rewrite !eqb_spec. rewrite !ltb_spec in Hpos. rewrite sqrt_spec in *.
  change (Prim2SF 0%float) with (S754_zero false) in *.
  destruct (Prim2SF f) as [[|]|[|]| |[|] m e]; try reflexivity.
  specialize (Hpos eq_refl).
  destruct (SF64sqrt (S754_finite false m e)) as [[|]|[|]| |[|] m' e'];
    try discriminate; reflexivity.
Qed.

(** The binary64 value of a nonzero operand is not a zero. *)
Lemma to_float_nonzero (v : pynum) (f : float) :
  is_zero v = false -> to_float v = Ok f -> (f =? 0)%float = false.
Proof.
  destruct v as [z|g|g]; cbn [is_zero to_float]; intros Hz E.
  - apply (int_to_float_nonzero z); [|exact E].
    intros ->. discriminate Hz.
  - apply Ok_inj in E. subst g. exact Hz.
  - apply Ok_inj in E. subst g. exact Hz.
Qed.

(** A product or a sum raises nothing but OverflowError. *)
Lemma mul_raises (x y : pynum) (e : exn) :
  mul_num x y = Raise e -> e = OverflowError.
Proof.
  intros E. destruct (mul_cases x y) as [E' | (v & E' & _)];
    rewrite E' in E; congruence.
Qed.

Lemma add_raises (x y : pynum) (e : exn) :
  add_num x y = Raise e -> e = OverflowError.
Proof.
  intros E. destruct (add_cases x y) as [E' | (v & E' & _)];
    rewrite E' in E; congruence.
Qed.

(** A quotient raises ZeroDivisionError only for a zero divisor between two
    Python numbers. *)
Lemma truediv_raises (x y : pynum) (e : exn) :
  truediv_num x y = Raise e ->
  e = OverflowError
  \/ (e = ZeroDivisionError
      /\ is_zero y = true /\ builtin x && builtin y = true).
Proof.
  unfold truediv_num, binop, float_truediv.
  destruct x as [a|f|f], y as [b|g|g];
    cbn [bind to_float is_np orb is_zero builtin negb andb];
    try (destruct (int_to_float a) as [fa|e'] eqn:Ea; cbn [bind];
         [| intros [= <-]; left; exact (int_to_float_raises _ _ Ea)]);
    try (destruct (int_to_float b) as [fb|e'] eqn:Eb; cbn [bind];
         [| intros [= <-]; left; exact (int_to_float_raises _ _ Eb)]);
    try discriminate.
  - destruct (int_truediv a b) as [q|e'] eqn:E; cbn [bind]; [discriminate|].
    intros [= <-].
    destruct (int_truediv_raises _ _ _ E) as [-> | [-> ->]]; auto.
  - destruct (g =? 0)%float eqn:Hg; cbn [bind]; [|discriminate].
    intros [= <-]. auto.
  - destruct (fb =? 0)%float eqn:Hg; cbn [bind]; [|discriminate].
    intros [= <-]. right. repeat split.
    destruct (b =? 0)%Z eqn:Hb; [reflexivity|].
    rewrite (int_to_float_nonzero b fb) in Hg; [discriminate | | exact Eb].
    intros ->. discriminate Hb.
  - destruct (g =? 0)%float eqn:Hg; cbn [bind]; [|discriminate].
    intros [= <-]. auto.
Qed.

(** Dividing by a NumPy float64 is NumPy's division. *)
Lemma truediv_float64 (x : pynum) (fx g : float) :
  to_float x = Ok fx ->
  truediv_num x (NpFloat64 g) = Ok (NpFloat64 (fx / g)).
Proof.
  intros E. unfold truediv_num, binop.
  destruct x as [a|f|f]; cbn [to_float] in *; rewrite ?E; cbn [bind is_np orb];
    try (apply Ok_inj in E; subst); reflexivity.
Qed.

(** The radicand is a float: a Python float or a NumPy float64. *)
Lemma radicand_not_int (a o h r : pynum) :
  radicand a o h = Ok r -> exists f, r = PyFloat f \/ r = NpFloat64 f.
Proof.
  unfold radicand. cbn [lit py_mul py_truediv pynum_Number].
  destruct (mul_num (PyInt 2) a) as [t1|e]; [cbn [bind] | discriminate].
  destruct (mul_num t1 o) as [t2|e]; [cbn [bind] | discriminate].
  apply truediv_not_int.
Qed.

(** A product or a sum with a float on the left is a float. *)
Lemma mul_float (x y v : pynum) :
  mul_num x y = Ok v -> as_float x <> None -> as_float v <> None.
Proof.
  unfold mul_num, binop.
  destruct x as [a|f|f], y as [b|g|g]; cbn [as_float to_float bind is_np orb];
    try congruence;
    try (destruct (int_to_float b); cbn [bind]; [|discriminate]);
    intros E _; apply Ok_inj in E; subst v; discriminate.
Qed.

Lemma add_float (x y v : pynum) :
  add_num x y = Ok v -> as_float x <> None -> as_float v <> None.
Proof.
  unfold add_num, binop.
  destruct x as [a|f|f], y as [b|g|g]; cbn [as_float to_float bind is_np orb];
    try congruence;
    try (destruct (int_to_float b); cbn [bind]; [|discriminate]);
    intros E _; apply Ok_inj in E; subst v; discriminate.
Qed.

(** A float is a NumPy float64 or a Python float. *)
Lemma float_shape (v : pynum) :
  as_float v <> None ->
  exists f, v = if is_np v then NpFloat64 f else PyFloat f.
Proof.
  destruct v as [z|f|f]; intros Hf;
    [exfalso; apply Hf; reflexivity | |]; exists f; reflexivity.
Qed.

(** Every outcome of [Compute_EOQ]. *)
Lemma Compute_EOQ_cases (a o h : pynum) :
  Compute_EOQ a o h = Raise OverflowError
  \/ (Compute_EOQ a o h = Raise ZeroDivisionError
      /\ is_zero h = true
      /\ builtin a && builtin o && builtin h = true)
  \/ exists r fr,
       radicand a o h = Ok r /\ as_float r = Some fr
       /\ Compute_EOQ a o h = Ok (NpFloat64 (PrimFloat.sqrt fr)).
Proof.
  unfold Compute_EOQ, radicand.
  cbn [lit py_mul py_truediv np_sqrt pynum_Number].
  destruct (mul_cases (PyInt 2) a) as [E1 | (t1 & E1 & T1)]; rewrite E1;
    cbn [bind]; [left; reflexivity|].
  destruct (mul_cases t1 o) as [E2 | (t2 & E2 & T2)]; rewrite E2;
    cbn [bind]; [left; reflexivity|].
  destruct (truediv_num t2 h) as [t3|e] eqn:E3; cbn [bind].
  - right; right.
    destruct (truediv_not_int _ _ _ E3) as (f & [-> | ->]);
      eexists; exists f; repeat split; reflexivity.
  - destruct (truediv_raises _ _ _ E3) as [-> | (-> & Hz & Hb)];
      [left; reflexivity | right; left].
    repeat split; [exact Hz|].
    unfold builtin in *. rewrite T2, T1 in Hb. cbn [is_np orb] in Hb.
    destruct (is_np a), (is_np o), (is_np h); cbn in *; congruence.
Qed.

(** With a NumPy float64 EOQ, [Compute_EOQ_TAC] is NumPy's arithmetic on the
    binary64 values of the operands: nothing is raised but OverflowError. *)
Lemma Compute_EOQ_TAC_float64_EOQ (Q : float) (a o h u : pynum) :
  Compute_EOQ_TAC (NpFloat64 Q) a o h u = Raise OverflowError
  \/ exists fa fo fh p fp,
       to_float a = Ok fa /\ to_float o = Ok fo /\ to_float h = Ok fh
       /\ mul_num u a = Ok p /\ to_float p = Ok fp
       /\ Compute_EOQ_TAC (NpFloat64 Q) a o h u
          = Ok (NpFloat64 (fa / Q * fo + Q / 2 * fh + fp)).
Proof.
  unfold Compute_EOQ_TAC. cbn [lit py_mul py_add py_truediv pynum_Number].
  destruct (to_float a) as [fa|e] eqn:Ea.
  2:{ left. unfold truediv_num, binop.
      destruct a as [z|f|f]; cbn [to_float] in Ea; try discriminate.
      cbn [to_float]. rewrite Ea, (int_to_float_raises _ _ Ea). reflexivity. }
  rewrite (truediv_float64 a fa Q Ea). cbn [bind].
  destruct (mul_np (NpFloat64 (fa / Q)) o eq_refl)
    as [E2 | (x2 & fo & X2 & Eo & E2)]; rewrite E2; cbn [bind];
    [left; reflexivity|].
  apply Ok_inj in X2. subst x2.
  change (truediv_num (NpFloat64 Q) (PyInt 2)) with (Ok (NpFloat64 (Q / 2))).
  cbn [bind].
  destruct (mul_np (NpFloat64 (Q / 2)) h eq_refl)
    as [E4 | (x4 & fh & X4 & Eh & E4)]; rewrite E4; cbn [bind];
    [left; reflexivity|].
  apply Ok_inj in X4. subst x4.
  change (add_num (NpFloat64 (fa / Q * fo)) (NpFloat64 (Q / 2 * fh)))
    with (Ok (NpFloat64 (fa / Q * fo + Q / 2 * fh))).
  cbn [bind].
  destruct (mul_cases u a) as [E6 | (p & E6 & _)]; rewrite E6; cbn [bind];
    [left; reflexivity|].
  destruct (add_np (NpFloat64 (fa / Q * fo + Q / 2 * fh)) p eq_refl)
    as [E7 | (x7 & fp & X7 & Ep & E7)]; rewrite E7; cbn [bind];
    [left; reflexivity|].
  apply Ok_inj in X7. subst x7.
  right. exists fa, fo, fh, p, fp. repeat split; assumption || reflexivity.
Qed.

(** X5. Every outcome of Compute_EOQ on Python and NumPy scalars: the call
    raises OverflowError (an int operand too large for a float); or it raises
    ZeroDivisionError, and then holding_cost == 0 and the three operands are
    Python ints or floats; or it returns a NumPy float64 that is not negative
    (a number >= 0 or NaN).  It raises nothing else and returns nothing
    else. *)
Theorem Compute_EOQ_outcome (annual_demand order_cost holding_cost : pynum) :
  Compute_EOQ annual_demand order_cost holding_cost = Raise OverflowError
  \/ (Compute_EOQ annual_demand order_cost holding_cost
      = Raise ZeroDivisionError
      /\ is_zero holding_cost = true
      /\ builtin annual_demand && builtin order_cost && builtin holding_cost
         = true)
  \/ exists EOQ,
       Compute_EOQ annual_demand order_cost holding_cost = Ok (NpFloat64 EOQ)
       /\ (EOQ <? 0)%float = false.
Proof.
  destruct (Compute_EOQ_cases annual_demand order_cost holding_cost)
    as [E | [E | (r & fr & _ & _ & E)]]; [left; exact E | right; left; exact E |].
  right; right. eexists. split; [exact E | apply sqrt_not_negative].
Qed.

(** X6. In binary64 the sign of the EOQ is the sign of the rounded radicand:
    whenever (2 * annual_demand * order_cost) / holding_cost evaluates to a
    float fr, Compute_EOQ returns a float64 EOQ with
    (0 < EOQ) == (0 < fr) and (EOQ == 0) == (fr == 0).  So the EOQ is
    positive exactly when the computed radicand is, and a radicand that is
    zero or underflows to zero gives an EOQ of zero. *)
Theorem Compute_EOQ_sign (annual_demand order_cost holding_cost r : pynum) :
  radicand annual_demand order_cost holding_cost = Ok r ->
  exists fr EOQ,
    as_float r = Some fr
    /\ Compute_EOQ annual_demand order_cost holding_cost = Ok (NpFloat64 EOQ)
    /\ (0 <? EOQ)%float = (0 <? fr)%float
    /\ (EOQ =? 0)%float = (fr =? 0)%float.
Proof.
  intros Hr. rewrite Compute_EOQ_radicand, Hr. cbn [bind].
  destruct (radicand_not_int _ _ _ _ Hr) as (f & [-> | ->]);
    exists f, (PrimFloat.sqrt f);
    (split; [reflexivity|]); (split; [reflexivity|]);
    split; [apply sqrt_positive_iff | apply sqrt_zero_iff
           | apply sqrt_positive_iff | apply sqrt_zero_iff].
Qed.

Lemma Compute_EOQ_sign_witness :
  exists fr EOQ,
    as_float (PyFloat 25000) = Some fr
    /\ Compute_EOQ (PyInt 1000) (PyInt 25) (PyInt 2) = Ok (NpFloat64 EOQ)
    /\ (0 <? EOQ)%float = (0 <? fr)%float
    /\ (EOQ =? 0)%float = (fr =? 0)%float.
Proof.
  apply (Compute_EOQ_sign (PyInt 1000) (PyInt 25) (PyInt 2) (PyFloat 25000)).
  vm_compute. reflexivity.
Defined.

(** X7. Every outcome of Compute_EOQ_TAC on Python and NumPy scalars: the
    call raises OverflowError (an int too large for a float); or it raises
    ZeroDivisionError, and then EOQ == 0 and both EOQ and annual_demand are
    Python ints or floats; or it returns a float, never an int: a NumPy
    float64 when one of the five operands is one, a Python float
    otherwise. *)
Theorem Compute_EOQ_TAC_outcome
    (EOQ annual_demand order_cost holding_cost unit_cost : pynum) :
  Compute_EOQ_TAC EOQ annual_demand order_cost holding_cost unit_cost
  = Raise OverflowError
  \/ (Compute_EOQ_TAC EOQ annual_demand order_cost holding_cost unit_cost
      = Raise ZeroDivisionError
      /\ is_zero EOQ = true
      /\ builtin annual_demand && builtin EOQ = true)
  \/ exists TAC,
       Compute_EOQ_TAC EOQ annual_demand order_cost holding_cost unit_cost
       = Ok (if is_np EOQ || is_np annual_demand || is_np order_cost
                || is_np holding_cost || is_np unit_cost
             then NpFloat64 TAC else PyFloat TAC).
Proof.
  unfold Compute_EOQ_TAC. cbn [lit py_mul py_add py_truediv pynum_Number].
  destruct (truediv_num annual_demand EOQ) as [t1|e1] eqn:E1; cbn [bind].
  2:{ destruct (truediv_raises _ _ _ E1) as [-> | (-> & Hz & Hb)]; auto. }
  destruct (truediv_not_int _ _ _ E1) as (f1 & F1).
  assert (N1 : is_np t1 = is_np annual_demand || is_np EOQ).
  { destruct (truediv_cases annual_demand EOQ) as [E | [[E _] | [f E]]];
      rewrite E in E1; try discriminate E1.
    apply Ok_inj in E1. subst t1.
    destruct (is_np annual_demand || is_np EOQ); reflexivity. }
  destruct (mul_cases t1 order_cost) as [E2 | (t2 & E2 & N2)]; rewrite E2;
    cbn [bind]; [left; reflexivity|].
  assert (F2 : as_float t2 <> None).
  { apply (mul_float _ _ _ E2). destruct F1 as [-> | ->]; discriminate. }
  destruct (truediv_by_2 EOQ) as [E3 | (t3 & E3 & N3)]; rewrite E3; cbn [bind];
    [left; reflexivity|].
  destruct (truediv_not_int _ _ _ E3) as (f3 & F3).
  destruct (mul_cases t3 holding_cost) as [E4 | (t4 & E4 & N4)]; rewrite E4;
    cbn [bind]; [left; reflexivity|].
  destruct (add_cases t2 t4) as [E5 | (t5 & E5 & N5)]; rewrite E5;
    cbn [bind]; [left; reflexivity|].
  assert (F5 : as_float t5 <> None) by exact (add_float _ _ _ E5 F2).
  destruct (mul_cases unit_cost annual_demand) as [E6 | (t6 & E6 & N6)];
    rewrite E6; cbn [bind]; [left; reflexivity|].
  destruct (add_cases t5 t6) as [E7 | (t7 & E7 & N7)]; rewrite E7;
    cbn [bind]; [left; reflexivity|].
  right; right.
  destruct (float_shape t7 (add_float _ _ _ E7 F5)) as (f & F7).
  exists f. rewrite F7 at 1. rewrite N7, N5, N2, N4, N1, N3, N6.
  destruct (is_np EOQ), (is_np annual_demand), (is_np order_cost),
    (is_np holding_cost), (is_np unit_cost); reflexivity.
Qed.

(** X8. Every outcome of the two-stage computation
    EOQ = Compute_EOQ(...); TAC = Compute_EOQ_TAC(EOQ, ...): the second stage
    never raises ZeroDivisionError, whatever the EOQ, because the EOQ it is
    given is a NumPy float64.  The computation raises OverflowError; or it
    raises ZeroDivisionError, and then holding_cost == 0 and annual_demand,
    order_cost and holding_cost are Python ints or floats; or it yields two
    NumPy float64 values. *)
Theorem EOQ_and_TAC_outcome
    (annual_demand order_cost holding_cost unit_cost : pynum) :
  EOQ_and_TAC annual_demand order_cost holding_cost unit_cost
  = Raise OverflowError
  \/ (EOQ_and_TAC annual_demand order_cost holding_cost unit_cost
      = Raise ZeroDivisionError
      /\ is_zero holding_cost = true
      /\ builtin annual_demand && builtin order_cost && builtin holding_cost
         = true)
  \/ exists EOQ TAC,
       EOQ_and_TAC annual_demand order_cost holding_cost unit_cost
       = Ok (NpFloat64 EOQ, NpFloat64 TAC).
Proof.
  unfold EOQ_and_TAC.
  destruct (Compute_EOQ_cases annual_demand order_cost holding_cost)
    as [E | [(E & Hz & Hb) | (r & fr & _ & _ & E)]]; rewrite E; cbn [bind];
    [left; reflexivity | right; left; auto |].
  destruct (Compute_EOQ_TAC_float64_EOQ (PrimFloat.sqrt fr) annual_demand
              order_cost holding_cost unit_cost)
    as [T | (fa & fo & fh & p & fp & _ & _ & _ & _ & _ & T)]; rewrite T;
    cbn [bind]; [left; reflexivity | right; right].
  do 2 eexists. reflexivity.
Qed.



(** X10. Compute_EOQ on float operands (Python floats or NumPy float64):
    the call raises ZeroDivisionError when holding_cost == 0 and the three
    operands are Python floats; otherwise it returns, as a NumPy float64, the
    binary64 value of sqrt(2 * annual_demand * order_cost / holding_cost),
    each operation rounded in the order of the source.  It never raises
    OverflowError on floats. *)
Theorem Compute_EOQ_on_floats
    (annual_demand order_cost holding_cost : pynum) (fa fo fh : float) :
  as_float annual_demand = Some fa -> as_float order_cost = Some fo ->
  as_float holding_cost = Some fh ->
  Compute_EOQ annual_demand order_cost holding_cost
  = if is_zero holding_cost && builtin annual_demand && builtin order_cost
       && builtin holding_cost
    then Raise ZeroDivisionError
    else Ok (NpFloat64 (PrimFloat.sqrt (2 * fa * fo / fh))).
Proof.
  intros Ha Ho Hh.
  destruct (is_zero holding_cost && builtin annual_demand
            && builtin order_cost && builtin holding_cost) eqn:Hz.
  - destruct annual_demand as [?|a|a], order_cost as [?|o|o],
      holding_cost as [?|h|h]; try discriminate;
      cbn [is_zero builtin is_np negb] in Hz;
      rewrite ?andb_true_r, ?andb_false_r in Hz; try discriminate Hz.
    apply Compute_EOQ_zero_holding_cost_floats. exact Hz.
  - apply Compute_EOQ_floats; assumption.
Qed.

Lemma Compute_EOQ_on_floats_witness :
  Compute_EOQ (PyFloat 1000) (PyFloat 25) (NpFloat64 0.5)
  = if is_zero (NpFloat64 0.5) && builtin (PyFloat 1000)
       && builtin (PyFloat 25) && builtin (NpFloat64 0.5)
    then Raise ZeroDivisionError
    else Ok (NpFloat64 (PrimFloat.sqrt (2 * 1000 * 25 / 0.5))).
Proof.
  apply (Compute_EOQ_on_floats (PyFloat 1000) (PyFloat 25) (NpFloat64 0.5));
    reflexivity.
Defined.

(** X11. Compute_EOQ_TAC on float operands: the call raises
    ZeroDivisionError when EOQ == 0 and EOQ and annual_demand are Python
    floats; otherwise it returns the binary64 value of
    (annual_demand / EOQ) * order_cost + (EOQ / 2) * holding_cost
    + unit_cost * annual_demand, each operation rounded in the order of the
    source, as a NumPy float64 when an operand is one and as a Python float
    otherwise. *)
Theorem Compute_EOQ_TAC_on_floats
    (EOQ annual_demand order_cost holding_cost unit_cost : pynum)
    (fQ fa fo fh fu : float) :
  as_float EOQ = Some fQ -> as_float annual_demand = Some fa ->
  as_float order_cost = Some fo -> as_float holding_cost = Some fh ->
  as_float unit_cost = Some fu ->
  Compute_EOQ_TAC EOQ annual_demand order_cost holding_cost unit_cost
  = if is_zero EOQ && builtin EOQ && builtin annual_demand
    then Raise ZeroDivisionError
    else Ok ((if is_np EOQ || is_np annual_demand || is_np order_cost
                 || is_np holding_cost || is_np unit_cost
              then NpFloat64 else PyFloat)
               (fa / fQ * fo + fQ / 2 * fh + fu * fa)%float).
Proof.
  intros HQ Ha Ho Hh Hu. unfold Compute_EOQ_TAC.
  cbn [lit py_mul py_add py_truediv pynum_Number].
  assert (H2 : (2 =? 0)%float = false) by reflexivity.
  destruct EOQ as [?|Q|Q], annual_demand as [?|a|a]; try discriminate;
    injection HQ as <-; injection Ha as <-;
    cbn [is_zero builtin is_np negb andb orb];
    rewrite ?andb_true_r, ?andb_false_r;
    try destruct (Q =? 0)%float eqn:Hz;
    destruct order_cost as [?|o|o], holding_cost as [?|h|h],
      unit_cost as [?|u|u]; try discriminate;
    injection Ho as <-; injection Hh as <-; injection Hu as <-;
    unfold mul_num, add_num, truediv_num, binop, float_truediv;
    cbn [to_float]; rewrite ?int_to_float_2; cbn [bind is_np orb to_float];
    rewrite ?Hz, ?H2; reflexivity.
Qed.

Lemma Compute_EOQ_TAC_on_floats_witness :
  Compute_EOQ_TAC (NpFloat64 158.11388300841898) (PyFloat 1000) (PyFloat 25)
                  (PyFloat 2) (PyFloat 8)
  = if is_zero (NpFloat64 158.11388300841898)
       && builtin (NpFloat64 158.11388300841898) && builtin (PyFloat 1000)
    then Raise ZeroDivisionError
    else Ok ((if is_np (NpFloat64 158.11388300841898) || is_np (PyFloat 1000)
                 || is_np (PyFloat 25) || is_np (PyFloat 2)
                 || is_np (PyFloat 8)
              then NpFloat64 else PyFloat)
               (1000 / 158.11388300841898 * 25 + 158.11388300841898 / 2 * 2
                + 8 * 1000)%float).
Proof.
  apply (Compute_EOQ_TAC_on_floats
           (NpFloat64 158.11388300841898) (PyFloat 1000) (PyFloat 25)
           (PyFloat 2) (PyFloat 8)); reflexivity.
Defined.

End Outcomes.

(** * The sweep over unit costs *)

Section SweepLists.
Context {V : Type} `{Number V} `{FloatLiteral V}.

(** A pass that does not raise appends one element to each list. *)
Lemma sweep_body_appends (a o : V) (lists lists' : list V * list V) (u : V) :
  sweep_body a o lists u = Ok lists' ->
  exists EOQ, lists' = (fst lists ++ [EOQ], snd lists ++ [u]).
Proof.
  unfold sweep_body. destruct lists as [EOQ_list unit_cost_list].
  destruct (py_mul lit_0_25 u) as [h|e]; [cbn [bind] | discriminate].
  destruct (Compute_EOQ a o h) as [EOQ|e]; [cbn [bind] | discriminate].
  intros E. apply Ok_inj in E. subst lists'. exists EOQ. reflexivity.
Qed.

(** The loop extends both lists by as many elements as it made passes, and
    [unit_cost_list] by the unit costs of these passes. *)
Lemma sweep_loop_lists (a o : V) (us : list V) (lists : list V * list V) :
  exists EOQs done rest,
    fst (sweep_loop a o lists us) = (fst lists ++ EOQs, snd lists ++ done)
    /\ length EOQs = length done
    /\ us = done ++ rest
    /\ (snd (sweep_loop a o lists us) = None <-> rest = []).
Proof.
  revert lists. induction us as [|u us IH]; intros lists; cbn [sweep_loop].
  - exists [], [], []. rewrite !app_nil_r. cbn [fst snd].
    repeat split; destruct lists; reflexivity.
  - destruct (sweep_body a o lists u) as [lists'|e] eqn:E.
    + destruct (sweep_body_appends _ _ _ _ _ E) as (EOQ & ->).
      destruct (IH (fst lists ++ [EOQ], snd lists ++ [u]))
        as (EOQs & done & rest & E1 & E2 & E3 & E4).
      exists (EOQ :: EOQs), (u :: done), rest.
      rewrite E1. cbn [fst snd]. rewrite <- !app_assoc. cbn [app length].
      repeat split; [congruence | congruence | apply E4 | apply E4].
    + exists [], [], (u :: us). rewrite !app_nil_r. cbn [fst snd app].
      repeat split; try (destruct lists; reflexivity); discriminate.
Qed.

(** X12. The lists of the sweep, whatever the numbers: when the loop ends,
    normally or by an exception, EOQ_list and unit_cost_list have the same
    length, unit_cost_list holds the unit costs of the passes made, in
    order, and no exception was raised exactly when all unit costs were
    processed. *)
Theorem sweep_lists (annual_demand order_cost : V) (unit_costs : list V) :
  length (fst (fst (sweep annual_demand order_cost unit_costs)))
  = length (snd (fst (sweep annual_demand order_cost unit_costs)))
  /\ exists rest,
       unit_costs
       = snd (fst (sweep annual_demand order_cost unit_costs)) ++ rest
       /\ (snd (sweep annual_demand order_cost unit_costs) = None
           <-> rest = []).
Proof.
  unfold sweep.
  destruct (sweep_loop_lists annual_demand order_cost unit_costs ([], []))
    as (EOQs & done & rest & E1 & E2 & E3 & E4).
  rewrite E1. cbn [fst snd app]. split; [exact E2|].
  exists rest. split; assumption.
Qed.

End SweepLists.

Section SweepExact.
Import Exact.
Local Open Scope R_scope.

Lemma sweep_body_exact (a o u : R) (lists : list xreal * list xreal) :
  0 < a -> 0 < o -> 0 < u ->
  sweep_body (Real a) (Real o) lists (Real u)
  = Ok (fst lists ++ [Real (sqrt (2 * a * o / (0.25 * u)))],
        snd lists ++ [Real u]).
Proof.
  intros Ha Ho Hu. unfold sweep_body.
  destruct lists as [EOQ_list unit_cost_list].
  cbn [py_mul xreal_Number lit_0_25 xreal_FloatLiteral mul_x lift2 bind].
  rewrite Compute_EOQ_pos by lra. reflexivity.
Qed.

Lemma sweep_loop_exact (a o : R) (us : list R)
    (lists : list xreal * list xreal) :
  0 < a -> 0 < o -> Forall (Rlt 0) us ->
  sweep_loop (Real a) (Real o) lists (map Real us)
  = ((fst lists ++ map (fun u => Real (sqrt (2 * a * o / (0.25 * u)))) us,
      snd lists ++ map Real us), None).
Proof.
  intros Ha Ho Hus. revert lists.
  induction Hus as [|u us Hu Hus IH]; intros lists; cbn [map sweep_loop].
  - rewrite !app_nil_r. destruct lists; reflexivity.
  - rewrite sweep_body_exact by assumption. rewrite IH. cbn [fst snd].
    rewrite <- !app_assoc. reflexivity.
Qed.

(** A larger unit cost gives a smaller EOQ. *)
Lemma sweep_EOQ_decreasing (a o u1 u2 : R) :
  0 < a -> 0 < o -> 0 < u1 -> u1 < u2 ->
  sqrt (2 * a * o / (0.25 * u2)) < sqrt (2 * a * o / (0.25 * u1)).
Proof.
  intros Ha Ho Hu Hlt.
  assert (Hp : 0 < 2 * a * o).
  { apply Rmult_lt_0_compat; [lra | assumption]. }
  apply sqrt_lt_1_alt. split.
  - apply Rlt_le, Rdiv_lt_0_compat; lra.
  - unfold Rdiv. apply Rmult_lt_compat_l; [exact Hp|].
    apply Rinv_lt_contravar; [|lra].
    apply Rmult_lt_0_compat; lra.
Qed.

(** X13. What the sweep plots: for positive annual_demand and order_cost
    and positive, strictly increasing unit costs, the loop raises nothing,
    yields one EOQ per unit cost, and the EOQs are positive and strictly
    decreasing (exact real arithmetic, holding_cost = 0.25 * unit_cost). *)
Theorem sweep_decreasing (annual_demand order_cost : R) (unit_costs : list R) :
  0 < annual_demand -> 0 < order_cost ->
  Forall (Rlt 0) unit_costs -> StronglySorted Rlt unit_costs ->
  exists EOQs,
    sweep (Real annual_demand) (Real order_cost) (map Real unit_costs)
    = ((map Real EOQs, map Real unit_costs), None)
    /\ length EOQs = length unit_costs
    /\ Forall (Rlt 0) EOQs
    /\ StronglySorted Rgt EOQs.
Proof.
  intros Ha Ho Hpos Hsorted.
  exists (map (fun u => sqrt (2 * annual_demand * order_cost / (0.25 * u)))
              unit_costs).
  split; [|split; [|split]].
  - unfold sweep. rewrite sweep_loop_exact by assumption.
    cbn [fst snd app]. rewrite map_map. reflexivity.
  - apply length_map.
  - apply Forall_map. eapply Forall_impl; [|exact Hpos].
    intros u Hu. apply sqrt_lt_R0.
    apply Rdiv_lt_0_compat; [|lra].
    apply Rmult_lt_0_compat; [lra | assumption].
  - induction Hsorted as [|u us Hs IH Hall]; cbn [map]; constructor.
    + apply IH. inversion Hpos; assumption.
    + apply Forall_map. inversion Hpos as [|? ? Hu Hus]; subst.
      eapply Forall_impl; [|exact Hall].
      intros v Hv. cbn beta. apply sweep_EOQ_decreasing; assumption.
Qed.

Lemma sweep_decreasing_witness :
  exists EOQs,
    sweep (Real 1000) (Real 25) (map Real [0.25; 0.5; 25])
    = ((map Real EOQs, map Real [0.25; 0.5; 25]), None)
    /\ length EOQs = length [0.25; 0.5; 25]
    /\ Forall (Rlt 0) EOQs
    /\ StronglySorted Rgt EOQs.
Proof.
  apply (sweep_decreasing 1000 25 [0.25; 0.5; 25]); try lra.
  - repeat constructor; lra.
  - repeat constructor; lra.
Defined.

End SweepExact.

Section SweepBinary64.
Import Binary64.

(** With a NumPy float64 holding cost the EOQ is NumPy's arithmetic on the
    binary64 value of [2 * annual_demand * order_cost]. *)
Lemma Compute_EOQ_float64_holding_cost (a o t1 n : pynum) (fn h : float) :
  mul_num (PyInt 2) a = Ok t1 -> mul_num t1 o = Ok n -> to_float n = Ok fn ->
  Compute_EOQ a o (NpFloat64 h) = Ok (NpFloat64 (PrimFloat.sqrt (fn / h))).
Proof.
  intros E1 E2 En. unfold Compute_EOQ.
  cbn [lit py_mul py_truediv np_sqrt pynum_Number].
  rewrite E1. cbn [bind]. rewrite E2. cbn [bind].
  rewrite (truediv_float64 n fn h En). reflexivity.
Qed.

Lemma sweep_loop_float64 (a o t1 n : pynum) (fn : float) (us : list float)
    (lists : list pynum * list pynum) :
  mul_num (PyInt 2) a = Ok t1 -> mul_num t1 o = Ok n -> to_float n = Ok fn ->
  sweep_loop a o lists (map NpFloat64 us)
  = ((fst lists
      ++ map (fun u => NpFloat64 (PrimFloat.sqrt (fn / (0.25 * u)))) us,
      snd lists ++ map NpFloat64 us), None).
Proof.
  intros E1 E2 En. revert lists.
  induction us as [|u us IH]; intros lists; cbn [map sweep_loop].
  - rewrite !app_nil_r. destruct lists; reflexivity.
  - unfold sweep_body. destruct lists as [EOQ_list unit_cost_list].
    change (py_mul lit_0_25 (NpFloat64 u)) with (Ok (NpFloat64 (0.25 * u))).
    cbn [bind].
    rewrite (Compute_EOQ_float64_holding_cost a o t1 n fn _ E1 E2 En).
    cbn [bind]. rewrite IH. cbn [fst snd]. rewrite <- !app_assoc. reflexivity.
Qed.

(** X14. The sweep over NumPy float64 unit costs, as [np.linspace] yields
    them, never raises, not even at a unit cost of zero: whenever
    2 * annual_demand * order_cost evaluates to a number with binary64 value
    fn, the loop ends normally with unit_cost_list equal to the unit costs
    and EOQ_list equal to the float64 values sqrt(fn / (0.25 * unit_cost)). *)
Theorem sweep_float64
    (annual_demand order_cost t1 n : pynum) (fn : float)
    (unit_costs : list float) :
  mul_num (PyInt 2) annual_demand = Ok t1 ->
  mul_num t1 order_cost = Ok n ->
  to_float n = Ok fn ->
  sweep annual_demand order_cost (map NpFloat64 unit_costs)
  = ((map (fun u => NpFloat64 (PrimFloat.sqrt (fn / (0.25 * u)))) unit_costs,
      map NpFloat64 unit_costs), None).
Proof.
  intros E1 E2 En. unfold sweep.
  rewrite (sweep_loop_float64 annual_demand order_cost t1 n fn _ _ E1 E2 En).
  reflexivity.
Qed.

Lemma sweep_float64_witness :
  sweep (PyInt 1000) (PyInt 25) notebook_unit_costs
  = ((map (fun u => NpFloat64 (PrimFloat.sqrt (50000 / (0.25 * u))))
          (linspace 0.25 25 100),
      notebook_unit_costs), None).
Proof.
  apply (sweep_float64 (PyInt 1000) (PyInt 25) (PyInt 2000) (PyInt 50000)
           50000 (linspace 0.25 25 100));
    vm_compute; reflexivity.
Defined.

End SweepBinary64.

(** * Binary64 rounding: signs and validity of rounded results *)

Section Signs.
Import Binary64 Values.
Local Open Scope Z_scope.

Lemma Zdigits2_nonneg (m : Z) : 0 <= Zdigits2 m.
Proof. destruct m; cbn; lia. Qed.

Lemma Zdigits2_mono (a b : Z) : 0 <= a <= b -> Zdigits2 a <= Zdigits2 b.
Proof.
  intros [Ha Hab]. destruct (Z.eq_dec a 0) as [-> | Hz].
  - apply Zdigits2_nonneg.
  - rewrite !Zdigits2_log2 by lia.
    apply Z.add_le_mono_r, Z.log2_le_mono. assumption.
Qed.

(** Shifting by at least as many positions as there are digits leaves 0. *)
Lemma shiftr_small (m n : Z) : 0 <= m -> Zdigits2 m <= n -> Z.shiftr m n = 0.
Proof.
  intros Hm Hn. destruct (Z.eq_dec m 0) as [-> | Hz]; [apply Z.shiftr_0_l|].
  rewrite Zdigits2_log2 in Hn by lia.
  apply Z.shiftr_eq_0; lia.
Qed.

(** A shift keeps a mantissa nonnegative. *)
Lemma shr_fexp_nonneg (m e : Z) (l : location) :
  0 <= m -> 0 <= shr_m (fst (shr_fexp prec emax m e l)).
Proof.
  intros Hm. unfold shr_fexp, shr.
  destruct (fexp prec emax (Zdigits2 m + e) - e) as [|n|n]; cbn [fst];
    rewrite ?shr_record_of_loc_m; try assumption.
  rewrite iter_shr_1_m by (rewrite shr_record_of_loc_m; assumption).
  rewrite shr_record_of_loc_m. apply Z.shiftr_nonneg. assumption.
Qed.

(** A shift moves a mantissa that does not lie above its target exponent
    to that exponent; what is left is positive with the same magnitude, or
    zero at the smallest exponent. *)
Lemma shr_fexp_exponent (m e : Z) (l : location) :
  0 <= m -> e <= fexp prec emax (Zdigits2 m + e) ->
  snd (shr_fexp prec emax m e l) = fexp prec emax (Zdigits2 m + e)
  /\ (0 < shr_m (fst (shr_fexp prec emax m e l)) ->
      Zdigits2 (shr_m (fst (shr_fexp prec emax m e l)))
      + snd (shr_fexp prec emax m e l)
      = Zdigits2 m + e)
  /\ (shr_m (fst (shr_fexp prec emax m e l)) = 0 ->
      snd (shr_fexp prec emax m e l) = emin).
Proof.
  intros Hm He. unfold shr_fexp, shr.
  pose proof (Zdigits2_nonneg m) as Hd.
  destruct (fexp prec emax (Zdigits2 m + e) - e) as [|n|n] eqn:En;
    cbn [fst snd]; rewrite ?shr_record_of_loc_m.
  - split; [lia|]. split; [lia|]. intros ->. cbn [Zdigits2] in *.
    unfold fexp, SpecFloat.emin, prec, emax in *. lia.
  - rewrite iter_shr_1_m by (rewrite shr_record_of_loc_m; assumption).
    rewrite shr_record_of_loc_m.
    split; [lia|].
    destruct (Z_lt_le_dec (Z.pos n) (Zdigits2 m)) as [Hlt | Hle].
    + assert (Hp : 0 < m) by (destruct m; cbn in Hlt; lia).
      destruct (shiftr_pos m (Z.pos n)) as [Hs Hg]; [assumption | lia |].
      split; [intros _; lia | lia].
    + split.
      * rewrite shiftr_small by lia. lia.
      * intros _. unfold fexp, SpecFloat.emin, prec, emax in *. lia.
  - lia.
Qed.

(** Rounding to nearest moves a mantissa by at most one. *)
Lemma round_nearest_even_bounds (m : Z) (l : location) :
  m <= round_nearest_even m l <= m + 1.
Proof.
  unfold round_nearest_even. destruct l as [|[| |]]; try lia.
  destruct (Z.even m); lia.
Qed.

(** Rounding a nonnegative mantissa keeps the sign it is given and yields
    no NaN. *)
Lemma binary_round_aux_signed (sx : bool) (mx ex : Z) (lx : location) :
  0 <= mx ->
  sign_is sx (binary_round_aux prec emax sx mx ex lx) = true.
Proof.
  intros Hm. unfold binary_round_aux.
  pose proof (shr_fexp_nonneg mx ex lx Hm) as N1.
  destruct (shr_fexp prec emax mx ex lx) as [mrs' e']. cbn [fst] in N1.
  pose proof (round_nearest_even_bounds (shr_m mrs') (loc_of_shr_record mrs'))
    as B.
  pose proof (shr_fexp_nonneg
                (round_nearest_even (shr_m mrs') (loc_of_shr_record mrs'))
                e' loc_Exact ltac:(lia)) as N2.
  destruct (shr_fexp prec emax _ e' loc_Exact) as [mrs'' e'']. cbn [fst] in N2.
  destruct (shr_m mrs'') as [|m|m]; [| |lia]; cbn [sign_is].
  - apply eqb_reflx.
  - destruct (e'' <=? emax - prec); cbn [sign_is]; apply eqb_reflx.
Qed.

(** Rounding a nonnegative mantissa that does not lie above its target
    exponent yields a zero, an infinity or a valid finite number. *)
Lemma binary_round_aux_valid_result (sx : bool) (mx ex : Z) (lx : location) :
  0 <= mx -> ex <= fexp prec emax (Zdigits2 mx + ex) ->
  binary_round_aux prec emax sx mx ex lx = S754_zero sx
  \/ binary_round_aux prec emax sx mx ex lx = S754_infinity sx
  \/ exists m e,
       binary_round_aux prec emax sx mx ex lx = S754_finite sx m e
       /\ SpecFloat.bounded prec emax m e = true.
Proof.
  intros Hm He. unfold binary_round_aux.
  pose proof (shr_fexp_nonneg mx ex lx Hm) as N1.
  destruct (shr_fexp_exponent mx ex lx Hm He) as (X1 & D1 & Z1).
  destruct (shr_fexp prec emax mx ex lx) as [mrs' e']. cbn [fst snd] in *.
  pose proof (round_nearest_even_bounds (shr_m mrs') (loc_of_shr_record mrs'))
    as B.
  set (m1 := round_nearest_even (shr_m mrs') (loc_of_shr_record mrs')) in *.
  assert (Hm1 : 0 <= m1) by lia.
  assert (He1 : e' <= fexp prec emax (Zdigits2 m1 + e')).
  { destruct (Z_lt_le_dec 0 (shr_m mrs')) as [Hp | Hz].
    - specialize (D1 Hp).
      transitivity (fexp prec emax (Zdigits2 (shr_m mrs') + e')).
      + rewrite D1. lia.
      + apply fexp_mono.
        pose proof (Zdigits2_mono (shr_m mrs') m1 ltac:(lia)). lia.
    - rewrite (Z1 ltac:(lia)). unfold fexp, SpecFloat.emin, prec, emax. lia. }
  pose proof (shr_fexp_nonneg m1 e' loc_Exact Hm1) as N2.
  destruct (shr_fexp_exponent m1 e' loc_Exact Hm1 He1) as (X2 & D2 & _).
  destruct (shr_fexp prec emax m1 e' loc_Exact) as [mrs'' e''].
  cbn [fst snd] in *.
  destruct (shr_m mrs'') as [|m|m] eqn:Em; [left; reflexivity | | lia].
  destruct (e'' <=? emax - prec) eqn:Hb; [|right; left; reflexivity].
  right; right. exists m, e''. split; [reflexivity|].
  unfold SpecFloat.bounded, canonical_mantissa. rewrite Hb, andb_true_r.
  apply Z.eqb_eq. specialize (D2 ltac:(lia)). cbn [Zdigits2] in D2.
  rewrite D2. lia.
Qed.

(** The quotient of two positive mantissas is nonnegative and does not lie
    above its target exponent. *)
Lemma SFdiv_core_binary_quotient (m1 m2 : positive) (e1 e2 : Z) :
  0 <= fst (fst (SFdiv_core_binary prec emax (Z.pos m1) e1 (Z.pos m2) e2))
  /\ snd (fst (SFdiv_core_binary prec emax (Z.pos m1) e1 (Z.pos m2) e2))
     <= fexp prec emax
          (Zdigits2
             (fst (fst (SFdiv_core_binary prec emax (Z.pos m1) e1 (Z.pos m2) e2)))
           + snd (fst (SFdiv_core_binary prec emax (Z.pos m1) e1 (Z.pos m2) e2))).
Proof.
  unfold SFdiv_core_binary.
  set (d1 := Zdigits2 (Z.pos m1)). set (d2 := Zdigits2 (Z.pos m2)).
  set (X := d1 + e1 - (d2 + e2)).
  set (e' := Z.min (fexp prec emax X) (e1 - e2)).
  set (s := e1 - e2 - e').
  assert (Hs : 0 <= s) by (subst s e'; lia).
  set (m' := match s with
             | 0 => Z.pos m1
             | Z.pos _ => Z.shiftl (Z.pos m1) s
             | Z.neg _ => 0
             end).
  assert (Hm' : m' = Z.pos m1 * 2 ^ s).
  { subst m'. destruct s as [|p|p] eqn:Es; [cbn; lia | | lia].
    rewrite Z.shiftl_mul_pow2 by lia. reflexivity. }
  pose proof (Z_div_mod m' (Z.pos m2) ltac:(lia)) as Hdiv.
  destruct (Z.div_eucl m' (Z.pos m2)) as [q r]. cbn [fst snd].
  destruct Hdiv as [Hq Hr].
  assert (H2s : 0 < 2 ^ s) by (apply Z.pow_pos_nonneg; lia).
  assert (Hmp : 0 < m') by (rewrite Hm'; apply Z.mul_pos_pos; lia).
  assert (Hq0 : 0 <= q) by nia.
  split; [exact Hq0|].
  assert (L1 : 2 ^ (d1 - 1) <= Z.pos m1 < 2 ^ d1).
  { subst d1. rewrite Zdigits2_log2 by lia.
    replace (Z.log2 (Z.pos m1) + 1 - 1) with (Z.log2 (Z.pos m1)) by lia.
    replace (Z.log2 (Z.pos m1) + 1) with (Z.succ (Z.log2 (Z.pos m1))) by lia.
    apply Z.log2_spec. lia. }
  assert (L2 : Z.pos m2 < 2 ^ d2).
  { subst d2. rewrite Zdigits2_log2 by lia.
    replace (Z.log2 (Z.pos m2) + 1) with (Z.succ (Z.log2 (Z.pos m2))) by lia.
    apply Z.log2_spec. lia. }
  assert (Hd1 : 1 <= d1).
  { subst d1. rewrite Zdigits2_log2 by lia.
    pose proof (Z.log2_nonneg (Z.pos m1)). lia. }
  assert (Hd2 : 1 <= d2).
  { subst d2. rewrite Zdigits2_log2 by lia.
    pose proof (Z.log2_nonneg (Z.pos m2)). lia. }
  destruct (Z_le_gt_dec 0 (d1 - 1 + s - d2)) as [Hk | Hk].
  - (* the quotient has at least d1 + s - d2 digits *)
    set (k := d1 - 1 + s - d2) in *.
    assert (Hpow : 2 ^ k * 2 ^ d2 = 2 ^ (d1 - 1) * 2 ^ s).
    { rewrite <- !Z.pow_add_r by lia. f_equal. lia. }
    assert (H2k : 0 < 2 ^ k) by (apply Z.pow_pos_nonneg; lia).
    assert (Hqk : 2 ^ k <= q) by nia.
    assert (Hlog : k <= Z.log2 q) by (apply Z.log2_le_pow2; lia).
    apply Z.le_trans with (fexp prec emax X); [subst e'; lia|].
    apply fexp_mono. rewrite Zdigits2_log2 by lia. subst X s. lia.
  - (* the quotient lies below the smallest exponent *)
    assert (HX : X <= e') by (subst X s; lia).
    assert (He' : e' <= emin).
    { subst e'. unfold fexp, SpecFloat.emin, prec, emax in *. lia. }
    unfold fexp, SpecFloat.emin, prec, emax in *. lia.
Qed.

(** The sign of a float(int), which is finite and not zero. *)
Lemma int_to_float_sign (z : Z) :
  z <> 0 ->
  int_to_float z = Raise OverflowError
  \/ exists f,
       int_to_float z = Ok f /\ finite_sign (z <? 0) (Prim2SF f) = true.
Proof.
  intros Hz. unfold int_to_float, binary_normalize.
  destruct z as [|p|p]; [contradiction | |].
  - destruct (binary_round_int false p) as [E | (m & e & E & Hb)];
      rewrite E; unfold rounded; [left; reflexivity | right].
    eexists. split; [reflexivity|].
    rewrite Prim2SF_SF2Prim by exact Hb. reflexivity.
  - destruct (binary_round_int true p) as [E | (m & e & E & Hb)];
      rewrite E; unfold rounded; [left; reflexivity | right].
    eexists. split; [reflexivity|].
    rewrite Prim2SF_SF2Prim by exact Hb. reflexivity.
Qed.

(** The sign of Python's quotient of two nonzero ints. *)
Lemma int_truediv_sign (a b : Z) :
  a <> 0 -> b <> 0 ->
  int_truediv a b = Raise OverflowError
  \/ exists f,
       int_truediv a b = Ok f
       /\ sign_is (xorb (a <? 0) (b <? 0)) (Prim2SF f) = true.
Proof.
  intros Ha Hb. unfold int_truediv.
  destruct (b =? 0) eqn:Eb; [apply Z.eqb_eq in Eb; contradiction|].
  assert (G : forall sa sb pa pb,
             rounded (SFdiv prec emax (S754_finite sa pa 0) (S754_finite sb pb 0))
             = Raise OverflowError
             \/ exists f,
                  rounded (SFdiv prec emax (S754_finite sa pa 0)
                             (S754_finite sb pb 0)) = Ok f
                  /\ sign_is (xorb sa sb) (Prim2SF f) = true).
  { intros sa sb pa pb. unfold SFdiv.
    destruct (SFdiv_core_binary_quotient pa pb 0 0) as [Hq He].
    destruct (SFdiv_core_binary prec emax (Z.pos pa) 0 (Z.pos pb) 0)
      as [[mz ez] lz]. cbn [fst snd] in Hq, He.
    destruct (binary_round_aux_valid_result (xorb sa sb) mz ez lz Hq He)
      as [E | [E | (m & e & E & Hv)]]; rewrite E; unfold rounded.
    - right. eexists. split; [reflexivity|].
      rewrite Prim2SF_SF2Prim by reflexivity. cbn [sign_is]. apply eqb_reflx.
    - left. reflexivity.
    - right. eexists. split; [reflexivity|].
      rewrite Prim2SF_SF2Prim by exact Hv. cbn [sign_is]. apply eqb_reflx. }
  destruct a as [|pa|pa], b as [|pb|pb]; try contradiction;
    cbn [int_to_SF Z.ltb Z.compare]; apply G.
Qed.

End Signs.

Section FloatSigns.
Import Binary64 Values.
Local Open Scope float_scope.

(** The sign tests of a float, read on its [spec_float]. *)
Lemma finite_positive_sign (f : float) :
  finite_positive f = true -> finite_sign false (Prim2SF f) = true.
Proof.
  unfold finite_positive. rewrite !ltb_spec.
  change (Prim2SF 0) with (S754_zero false).
  change (Prim2SF infinity) with (S754_infinity false).
  destruct (Prim2SF f) as [[|]|[|]| |[|] m e]; cbn; intros H;
    try discriminate H; reflexivity.
Qed.

Lemma finite_nonzero_sign (f : float) :
  finite_nonzero f = true -> finite_sign (f <? 0) (Prim2SF f) = true.
Proof.
  unfold finite_nonzero. rewrite !ltb_spec, abs_spec.
  change (Prim2SF 0) with (S754_zero false).
  change (Prim2SF infinity) with (S754_infinity false).
  destruct (Prim2SF f) as [[|]|[|]| |[|] m e]; cbn; intros H;
    try discriminate H; reflexivity.
Qed.

Lemma finite_sign_sign_is (s : bool) (sf : spec_float) :
  finite_sign s sf = true -> sign_is s sf = true.
Proof. destruct sf; cbn; congruence. Qed.

Lemma sign_is_nonneg (f : float) :
  sign_is false (Prim2SF f) = true -> (0 <=? f) = true.
Proof.
  rewrite leb_spec. change (Prim2SF 0) with (S754_zero false).
  destruct (Prim2SF f) as [[|]|[|]| |[|] m e]; cbn; intros H;
    try discriminate H; reflexivity.
Qed.

Lemma sign_is_negative (f : float) :
  sign_is true (Prim2SF f) = true ->
  (f <? 0) = true \/ f = (-0)%float.
Proof.
  rewrite ltb_spec. change (Prim2SF 0) with (S754_zero false).
  intros H. destruct (Prim2SF f) as [[|]|[|]| |[|] m e] eqn:E; cbn in H;
    try discriminate H; try (left; reflexivity).
  right. rewrite <- (SF2Prim_Prim2SF f), E. reflexivity.
Qed.

(** The sign of a product or a quotient by a finite nonzero number. *)
Lemma mul_sign (x y : float) (s1 s2 : bool) :
  sign_is s1 (Prim2SF x) = true -> finite_sign s2 (Prim2SF y) = true ->
  sign_is (xorb s1 s2) (Prim2SF (x * y)) = true.
Proof.
  rewrite mul_spec. unfold SF64mul, SFmul.
  destruct (Prim2SF x) as [sx|sx| |sx mx ex], (Prim2SF y) as [sy|sy| |sy my ey];
    cbn [sign_is finite_sign]; intros H1 H2; try discriminate;
    apply eqb_prop in H1, H2; subst; try apply eqb_reflx.
  apply binary_round_aux_signed. lia.
Qed.

Lemma div_sign (x y : float) (s1 s2 : bool) :
  sign_is s1 (Prim2SF x) = true -> finite_sign s2 (Prim2SF y) = true ->
  sign_is (xorb s1 s2) (Prim2SF (x / y)) = true.
Proof.
  rewrite div_spec. unfold SF64div, SFdiv.
  destruct (Prim2SF x) as [sx|sx| |sx mx ex], (Prim2SF y) as [sy|sy| |sy my ey];
    cbn [sign_is finite_sign]; intros H1 H2; try discriminate;
    apply eqb_prop in H1, H2; subst; try apply eqb_reflx.
  destruct (SFdiv_core_binary_quotient mx my ex ey) as [Hq _].
  destruct (SFdiv_core_binary prec emax (Z.pos mx) ex (Z.pos my) ey)
    as [[mz ez] lz]. cbn [fst] in Hq.
  apply binary_round_aux_signed. exact Hq.
Qed.



(** [0 <= x] is [0 < x] or [x == 0]. *)
Lemma leb_ltb_eqb (x : float) : (0 <=? x) = (0 <? x) || (x =? 0).
Proof.
  rewrite leb_spec, ltb_spec, eqb_spec.
  change (Prim2SF 0) with (S754_zero false).
  destruct (Prim2SF x) as [[|]|[|]| |[|] m e]; reflexivity.
Qed.

(** The square root of a number [>= 0] is [>= 0]. *)
Lemma sqrt_nonneg (f : float) :
  (0 <=? f) = true -> (0 <=? PrimFloat.sqrt f) = true.
Proof.
  rewrite !leb_ltb_eqb, sqrt_positive_iff, sqrt_zero_iff. trivial.
Qed.

(** The square root of minus zero is minus zero. *)
Lemma sqrt_neg_zero : PrimFloat.sqrt (-0) = (-0)%float.
Proof. reflexivity. Qed.

End FloatSigns.

(** * Binary64: the values the two functions return *)

Section ValueEquations.
Import Binary64 Values.

Lemma to_float_raises (v : pynum) (e : exn) :
  to_float v = Raise e -> e = OverflowError.
Proof. destruct v; cbn [to_float]; [apply int_to_float_raises | |]; discriminate. Qed.

Lemma to_float_float_result (np : bool) (f : float) :
  to_float (float_result np f) = Ok f.
Proof. destruct np; reflexivity. Qed.

Lemma is_np_float_result (np : bool) (f : float) :
  is_np (float_result np f) = np.
Proof. destruct np; reflexivity. Qed.

Lemma as_float_float_result (np : bool) (f : float) :
  as_float (float_result np f) = Some f.
Proof. destruct np; reflexivity. Qed.

(** Splits on a conversion of an int to binary64; where it overflows, both
    sides raise OverflowError. *)
Ltac convert z :=
  let E := fresh "E" in
  destruct (int_to_float z) eqn:E; cbn [bind];
  [| try rewrite (int_to_float_raises _ _ E); try reflexivity].

(** [2 * x]. *)
Lemma mul_2 (x : pynum) : mul_num (PyInt 2) x = Ok (double x).
Proof.
  unfold mul_num, binop. destruct x as [a|f|f]; cbn [to_float double];
    rewrite ?int_to_float_2; reflexivity.
Qed.

(** A quotient by a nonzero number, or with a NumPy float64 operand. *)
Lemma truediv_quotient (x y : pynum) :
  is_zero y = false \/ is_np x || is_np y = true ->
  truediv_num x y
  = match quotient x y with
    | Ok q => Ok (float_result (is_np x || is_np y) q)
    | Raise _ => Raise OverflowError
    end.
Proof.
  intros H. unfold truediv_num, binop, quotient, float_truediv.
  destruct x as [a|f|f], y as [b|g|g];
    cbn [to_float is_np orb is_zero bind float_result] in *;
    try (destruct H as [H | H]; [|discriminate H]).
  - destruct (int_truediv a b) as [q|e] eqn:E; cbn [bind]; [reflexivity|].
    destruct (int_truediv_raises _ _ _ E) as [-> | [_ ->]];
      [reflexivity | discriminate H].
  - convert a. rewrite H. reflexivity.
  - convert a. reflexivity.
  - destruct (int_to_float b) as [fb|e] eqn:E; cbn [bind];
      [|rewrite (int_to_float_raises _ _ E); reflexivity].
    rewrite (int_to_float_nonzero b fb); [reflexivity | | assumption].
    intros ->. discriminate H.
  - rewrite H. reflexivity.
  - reflexivity.
  - convert b. reflexivity.
  - reflexivity.
  - reflexivity.
Qed.

(** A product, exact between ints. *)
Lemma mul_product (x y : pynum) :
  mul_num x y
  = match x, y with
    | PyInt a, PyInt b => Ok (PyInt (a * b))
    | _, _ =>
        match product x y with
        | Ok p => Ok (float_result (is_np x || is_np y) p)
        | Raise _ => Raise OverflowError
        end
    end.
Proof.
  unfold mul_num, binop, product.
  destruct x as [a|f|f], y as [b|g|g];
    cbn [to_float is_np orb bind float_result]; try reflexivity;
    try (convert a; reflexivity); convert b; reflexivity.
Qed.

(** A product with a float on the left. *)
Lemma mul_float_l (x y : pynum) (fx : float) :
  as_float x = Some fx ->
  mul_num x y
  = match to_float y with
    | Ok fy => Ok (float_result (is_np x || is_np y) (fx * fy))
    | Raise _ => Raise OverflowError
    end.
Proof.
  unfold mul_num, binop.
  destruct x as [a|f|f]; cbn [as_float]; intros [= <-];
    destruct y as [b|g|g]; cbn [to_float is_np orb bind float_result];
    try reflexivity; convert b; reflexivity.
Qed.

(** A sum with a float on the left. *)
Lemma add_float_l (x y : pynum) (fx : float) :
  as_float x = Some fx ->
  add_num x y
  = match to_float y with
    | Ok fy => Ok (float_result (is_np x || is_np y) (fx + fy))
    | Raise _ => Raise OverflowError
    end.
Proof.
  unfold add_num, binop.
  destruct x as [a|f|f]; cbn [as_float]; intros [= <-];
    destruct y as [b|g|g]; cbn [to_float is_np orb bind float_result];
    try reflexivity; convert b; reflexivity.
Qed.

(** Adding [u * a] to a float. *)
Lemma add_product (x u a : pynum) (fx : float) :
  as_float x = Some fx ->
  (t <- mul_num u a ;; add_num x t)
  = match product u a with
    | Ok p => Ok (float_result (is_np x || (is_np u || is_np a)) (fx + p))
    | Raise _ => Raise OverflowError
    end.
Proof.
  intros Hx. rewrite mul_product.
  destruct u as [z|f|f], a as [b|g|g]; cbn [bind];
    try (destruct (product _ _) as [p|e]; cbn [bind]; [|reflexivity];
         rewrite (add_float_l _ _ fx Hx), to_float_float_result,
           is_np_float_result; reflexivity).
  rewrite (add_float_l _ _ fx Hx). cbn [to_float product is_np orb].
  destruct (int_to_float (z * b)); reflexivity.
Qed.

(** A quotient with a float on the left. *)
Lemma truediv_float_l (x y : pynum) (fx : float) :
  as_float x = Some fx ->
  is_zero y = false \/ is_np x || is_np y = true ->
  truediv_num x y
  = match to_float y with
    | Ok fy => Ok (float_result (is_np x || is_np y) (fx / fy))
    | Raise _ => Raise OverflowError
    end.
Proof.
  intros Hx H. rewrite truediv_quotient by exact H. unfold quotient.
  destruct x as [a|f|f]; cbn [as_float] in Hx; [discriminate Hx | |];
    injection Hx as <-; cbn [to_float bind];
    destruct (to_float y); reflexivity.
Qed.

Lemma sqrt_float_result (np : bool) (f : float) :
  sqrt_num (float_result np f) = Ok (NpFloat64 (PrimFloat.sqrt f)).
Proof. destruct np; reflexivity. Qed.

(** The value of [Compute_EOQ] whenever the division is not a division of
    Python numbers by zero. *)
Lemma Compute_EOQ_value (a o h : pynum) :
  is_zero h = false \/ is_np a || is_np o || is_np h = true ->
  Compute_EOQ a o h
  = match radicand_value a o h with
    | Ok fr => Ok (NpFloat64 (PrimFloat.sqrt fr))
    | Raise _ => Raise OverflowError
    end.
Proof.
  intros H. unfold Compute_EOQ, radicand_value.
  cbn [lit py_mul py_truediv np_sqrt pynum_Number].
  rewrite mul_2. cbn [bind]. rewrite mul_product.
  destruct a as [a|fa|fa], o as [o|fo|fo]; cbn [double bind is_np orb] in *.
  1:{ rewrite truediv_quotient by exact H.
      destruct (quotient (PyInt (2 * a * o)) h) as [q|e]; cbn [bind];
        [rewrite sqrt_float_result; reflexivity | reflexivity]. }
  all: destruct (product _ _) as [n|e]; cbn [bind]; [|reflexivity].
  all: rewrite (truediv_float_l _ _ n)
    by first [ apply as_float_float_result
             | rewrite ?is_np_float_result; cbn [orb];
               destruct H as [H | H]; [left | right]; exact H ].
  all: destruct (to_float h) as [fh|e]; cbn [bind];
    [rewrite sqrt_float_result; reflexivity | reflexivity].
Qed.

(** The value of [Compute_EOQ_TAC] whenever the first division is not a
    division of Python numbers by zero. *)
Lemma Compute_EOQ_TAC_value (EOQ a o h u : pynum) :
  is_zero EOQ = false \/ is_np a || is_np EOQ = true ->
  Compute_EOQ_TAC EOQ a o h u
  = match TAC_value EOQ a o h u with
    | Ok v =>
        Ok (float_result
              (is_np EOQ || is_np a || is_np o || is_np h || is_np u) v)
    | Raise _ => Raise OverflowError
    end.
Proof.
  intros H. unfold Compute_EOQ_TAC, TAC_value.
  cbn [lit py_mul py_add py_truediv pynum_Number].
  rewrite truediv_quotient by exact H.
  destruct (quotient a EOQ) as [q1|e]; cbn [bind]; [|reflexivity].
  rewrite (mul_float_l _ _ q1) by apply as_float_float_result.
  destruct (to_float o) as [fo|e]; cbn [bind]; [|reflexivity].
  rewrite truediv_quotient by (left; reflexivity).
  destruct (quotient EOQ (PyInt 2)) as [q3|e]; cbn [bind]; [|reflexivity].
  rewrite (mul_float_l _ _ q3) by apply as_float_float_result.
  destruct (to_float h) as [fh|e]; cbn [bind]; [|reflexivity].
  rewrite (add_float_l _ _ (q1 * fo)) by apply as_float_float_result.
  rewrite to_float_float_result. cbn [bind].
  pose proof (add_product
                (float_result
                   (is_np (float_result
                             (is_np (float_result (is_np a || is_np EOQ) q1)
                              || is_np o) (q1 * fo))
                    || is_np (float_result
                                (is_np (float_result
                                          (is_np EOQ || is_np (PyInt 2)) q3)
                                 || is_np h) (q3 * fh)))
                   (q1 * fo + q3 * fh)) u a (q1 * fo + q3 * fh)
                (as_float_float_result _ _)) as P.
  cbn [bind] in P.
  destruct (mul_num u a) as [t6|e6]; cbn [bind] in *.
  - rewrite P. destruct (product u a) as [p|e]; [|reflexivity].
    rewrite !is_np_float_result. cbn [is_np orb]. do 2 f_equal.
    destruct (is_np EOQ), (is_np a), (is_np o), (is_np h), (is_np u);
      reflexivity.
  - rewrite P. destruct (product u a) as [p|e]; [discriminate P | reflexivity].
Qed.

End ValueEquations.

(** * Binary64: the sign of the values *)

Section ValueSigns.
Import Binary64 Values.

Lemma finite_positive_nonzero (f : float) :
  finite_positive f = true ->
  finite_nonzero f = true /\ (f <? 0)%float = false.
Proof.
  unfold finite_positive, finite_nonzero. rewrite !ltb_spec, abs_spec.
  change (Prim2SF 0) with (S754_zero false).
  change (Prim2SF infinity) with (S754_infinity false).
  destruct (Prim2SF f) as [[|]|[|]| |[|] m e]; cbn; intros H;
    try discriminate H; split; reflexivity.
Qed.

(** A positive operand is finite, not zero and not negative. *)
Lemma is_positive_regular (v : pynum) :
  is_positive v = true -> is_regular v = true /\ is_negative v = false.
Proof.
  destruct v as [z|f|f]; cbn [is_positive is_regular is_negative];
    [| apply finite_positive_nonzero | apply finite_positive_nonzero].
  intros H. apply Z.ltb_lt in H. split.
  - apply negb_true_iff, Z.eqb_neq. lia.
  - apply Z.ltb_ge. lia.
Qed.

(** The float value of a finite nonzero operand has the operand's sign. *)
Lemma to_float_sign (v : pynum) :
  is_regular v = true ->
  to_float v = Raise OverflowError
  \/ exists f,
       to_float v = Ok f /\ finite_sign (is_negative v) (Prim2SF f) = true.
Proof.
  destruct v as [z|f|f]; cbn [is_regular to_float is_negative]; intros H.
  - apply int_to_float_sign. intros ->. discriminate H.
  - right. exists f. split; [reflexivity | apply finite_nonzero_sign, H].
  - right. exists f. split; [reflexivity | apply finite_nonzero_sign, H].
Qed.

Lemma Prim2SF_2 : sign_is false (Prim2SF 2) = true.
Proof. reflexivity. Qed.

(** The float value of [2 * x] has the sign of [x]. *)
Lemma to_float_double_sign (v : pynum) :
  is_regular v = true ->
  to_float (double v) = Raise OverflowError
  \/ exists f,
       to_float (double v) = Ok f
       /\ sign_is (is_negative v) (Prim2SF f) = true.
Proof.
  destruct v as [z|f|f];
    cbn [is_regular to_float double is_negative]; intros H.
  - destruct (int_to_float_sign (2 * z)) as [E | (f & E & S)].
    + apply negb_true_iff, Z.eqb_neq in H. lia.
    + left. exact E.
    + right. exists f. split; [exact E|]. apply finite_sign_sign_is.
      replace (z <? 0)%Z with (2 * z <? 0)%Z; [exact S|].
      destruct z; reflexivity.
  - right. eexists. split; [reflexivity|].
    exact (mul_sign 2 f false _ Prim2SF_2 (finite_nonzero_sign f H)).
  - right. eexists. split; [reflexivity|].
    exact (mul_sign 2 f false _ Prim2SF_2 (finite_nonzero_sign f H)).
Qed.

Lemma Zmul_sign (a b : Z) :
  a <> 0%Z -> b <> 0%Z ->
  (a * b <> 0)%Z /\ (a * b <? 0)%Z = xorb (a <? 0)%Z (b <? 0)%Z.
Proof.
  destruct a, b; intros Ha Hb; try contradiction; split;
    try reflexivity; discriminate.
Qed.

(** The sign of a quotient of finite nonzero operands. *)
Lemma quotient_sign (x y : pynum) :
  is_regular x = true -> is_regular y = true ->
  quotient x y = Raise OverflowError
  \/ exists q,
       quotient x y = Ok q
       /\ sign_is (xorb (is_negative x) (is_negative y)) (Prim2SF q) = true.
Proof.
  intros Hx Hy. unfold quotient.
  assert (G : (fx <- to_float x ;; fy <- to_float y ;; Ok (fx / fy)%float)
              = Raise OverflowError
              \/ exists q,
                   (fx <- to_float x ;; fy <- to_float y ;; Ok (fx / fy)%float)
                   = Ok q
                   /\ sign_is (xorb (is_negative x) (is_negative y))
                        (Prim2SF q) = true).
  { destruct (to_float_sign x Hx) as [E | (fx & E & Sx)]; rewrite E;
      cbn [bind]; [left; reflexivity|].
    destruct (to_float_sign y Hy) as [E' | (fy & E' & Sy)]; rewrite E';
      cbn [bind]; [left; reflexivity | right].
    eexists. split; [reflexivity|].
    apply div_sign; [apply finite_sign_sign_is|]; assumption. }
  destruct x as [a|f|f], y as [b|g|g]; try exact G.
  cbn [is_regular is_negative] in *.
  apply negb_true_iff, Z.eqb_neq in Hx, Hy.
  apply int_truediv_sign; assumption.
Qed.

(** The sign of [2 * a * o] when it is a binary64 product. *)
Lemma product_double_sign (a o : pynum) :
  is_regular a = true -> is_regular o = true ->
  as_float a <> None \/ as_float o <> None ->
  product (double a) o = Raise OverflowError
  \/ exists n,
       product (double a) o = Ok n
       /\ sign_is (xorb (is_negative a) (is_negative o)) (Prim2SF n) = true.
Proof.
  intros Ha Ho Hf.
  assert (P : product (double a) o
              = (fx <- to_float (double a) ;; fy <- to_float o ;;
                 Ok (fx * fy)%float)).
  { destruct a as [?|?|?], o as [?|?|?]; try reflexivity.
    destruct Hf as [Hf | Hf]; exfalso; apply Hf; reflexivity. }
  rewrite P.
  destruct (to_float_double_sign a Ha) as [E | (f2 & E & S2)]; rewrite E;
    cbn [bind]; [left; reflexivity|].
  destruct (to_float_sign o Ho) as [E' | (fo & E' & So)]; rewrite E';
    cbn [bind]; [left; reflexivity | right].
  eexists. split; [reflexivity|]. apply mul_sign; assumption.
Qed.

(** The sign of the radicand of finite nonzero operands. *)
Lemma radicand_value_sign (a o h : pynum) :
  is_regular a = true -> is_regular o = true -> is_regular h = true ->
  radicand_value a o h = Raise OverflowError
  \/ exists fr,
       radicand_value a o h = Ok fr
       /\ sign_is (xorb (xorb (is_negative a) (is_negative o)) (is_negative h))
            (Prim2SF fr) = true.
Proof.
  intros Ha Ho Hh.
  assert (G : as_float a <> None \/ as_float o <> None ->
              (n <- product (double a) o ;; fh <- to_float h ;;
               Ok (n / fh)%float) = Raise OverflowError
              \/ exists fr,
                   (n <- product (double a) o ;; fh <- to_float h ;;
                    Ok (n / fh)%float) = Ok fr
                   /\ sign_is (xorb (xorb (is_negative a) (is_negative o))
                                 (is_negative h)) (Prim2SF fr) = true).
  { intros Hf.
    destruct (product_double_sign a o Ha Ho Hf) as [E | (n & E & Sn)];
      rewrite E; cbn [bind]; [left; reflexivity|].
    destruct (to_float_sign h Hh) as [E' | (fh & E' & Sh)]; rewrite E';
      cbn [bind]; [left; reflexivity | right].
    eexists. split; [reflexivity|]. apply div_sign; assumption. }
  unfold radicand_value.
  destruct a as [za|fa|fa], o as [zo|fo|fo];
    try (apply G; cbn [as_float]; (left; discriminate) || (right; discriminate)).
  clear G. cbn [is_regular is_negative] in Ha, Ho.
  apply negb_true_iff, Z.eqb_neq in Ha, Ho.
  assert (H2 : (2 * za <> 0)%Z) by lia.
  destruct (Zmul_sign (2 * za) zo H2 Ho) as [N S].
  destruct (quotient_sign (PyInt (2 * za * zo)) h) as [E | (q & E & Sq)].
  - cbn [is_regular]. apply negb_true_iff, Z.eqb_neq. exact N.
  - exact Hh.
  - left. exact E.
  - right. exists q. split; [exact E|].
    cbn [is_negative] in *. rewrite S in Sq.
    replace (2 * za <? 0)%Z with (za <? 0)%Z in Sq; [exact Sq|].
    destruct za; reflexivity.
Qed.




End ValueSigns.

(** * Binary64: what the two functions return, and when they raise *)

Section Returned.
Import Binary64 Values.

Lemma int_to_float_0 : int_to_float 0 = Ok 0%float.
Proof. reflexivity. Qed.

(** A conversion raises exactly when the operand is an int too large. *)
Lemma to_float_overflows (v : pynum) :
  to_float v
  = if overflows v then Raise OverflowError
    else match to_float v with
         | Ok f => Ok f
         | Raise e => Raise e
         end.
Proof.
  destruct v as [z|f|f]; cbn [to_float overflows]; try reflexivity.
  unfold float_overflows.
  destruct (int_to_float z) as [f|e] eqn:E; [reflexivity|].
  rewrite (int_to_float_raises _ _ E). reflexivity.
Qed.

Lemma to_float_fits (v : pynum) :
  overflows v = false -> exists f, to_float v = Ok f.
Proof.
  destruct v as [z|f|f]; cbn [to_float overflows]; try (eexists; reflexivity).
  unfold float_overflows. destruct (int_to_float z) as [f|e]; [|discriminate].
  intros _. exists f. reflexivity.
Qed.

Lemma to_float_too_large (v : pynum) :
  overflows v = true -> to_float v = Raise OverflowError.
Proof.
  destruct v as [z|f|f]; cbn [to_float overflows]; try discriminate.
  unfold float_overflows. destruct (int_to_float z) as [f|e] eqn:E;
    [discriminate|]. intros _. rewrite (int_to_float_raises _ _ E). reflexivity.
Qed.

(** The float value of a zero operand is a zero. *)
Lemma to_float_of_zero (v : pynum) :
  is_zero v = true -> exists f, to_float v = Ok f /\ (f =? 0)%float = true.
Proof.
  destruct v as [z|f|f]; cbn [is_zero to_float]; intros H.
  - apply Z.eqb_eq in H. subst z. exists 0%float. split; reflexivity.
  - exists f. split; [reflexivity | exact H].
  - exists f. split; [reflexivity | exact H].
Qed.

(** The square root of a quotient by zero is +inf or NaN. *)
Lemma sqrt_div_zero (x z : float) :
  (z =? 0)%float = true ->
  PrimFloat.sqrt (x / z) = infinity \/ PrimFloat.sqrt (x / z) = nan.
Proof. intros Hz. apply sqrt_nonfinite, div_zero_nonfinite, Hz. Qed.

(** C1, as amended.  For every annual_demand, order_cost and nonzero
    holding_cost, each a Python int, a Python float or a NumPy float64,
    Compute_EOQ returns the NumPy float64 [sqrt r], the correctly rounded
    square root of the binary64 value [r] of
    (2*annual_demand*order_cost)/holding_cost computed in the source's order
    ([radicand_value]: a product of ints is exact, an int that meets a float
    is converted by float(), every float product and quotient is rounded,
    the quotient of two ints is correctly rounded); and it raises
    OverflowError exactly when that evaluation does: when an int converted
    by float(), or the quotient of two ints, is too large for a float. *)
Theorem Compute_EOQ_binary64 (annual_demand order_cost holding_cost : pynum) :
  is_zero holding_cost = false ->
  Compute_EOQ annual_demand order_cost holding_cost
  = match radicand_value annual_demand order_cost holding_cost with
    | Ok fr => Ok (NpFloat64 (PrimFloat.sqrt fr))
    | Raise _ => Raise OverflowError
    end.
Proof. intros Hz. apply Compute_EOQ_value. left. exact Hz. Qed.

Lemma Compute_EOQ_binary64_witness :
  Compute_EOQ (PyInt 1000) (PyInt 25) (PyInt 2)
  = Ok (NpFloat64 (PrimFloat.sqrt 25000))
  /\ Compute_EOQ (PyFloat 1000) (NpFloat64 25) (PyInt 2)
     = Ok (NpFloat64 (PrimFloat.sqrt (2 * 1000 * 25 / 2)))
  /\ Compute_EOQ (PyInt (10 ^ 400)) (PyFloat 25) (PyInt 2)
     = Raise OverflowError.
Proof.
  split; [|split].
  - rewrite (Compute_EOQ_binary64 (PyInt 1000) (PyInt 25) (PyInt 2) eq_refl).
    vm_compute. reflexivity.
  - rewrite (Compute_EOQ_binary64 (PyFloat 1000) (NpFloat64 25) (PyInt 2)
               eq_refl).
    vm_compute. reflexivity.
  - rewrite (Compute_EOQ_binary64 (PyInt (10 ^ 400)) (PyFloat 25) (PyInt 2)
               eq_refl).
    vm_compute. reflexivity.
Defined.

(** C1, as stated, fails: an int too large for a float raises OverflowError,
    a radicand that underflows gives 0.0 where the real square root is
    positive, and a radicand that overflows gives inf. *)
Lemma Compute_EOQ_formula_fails :
  is_zero (PyInt 2) = false
  /\ Compute_EOQ (PyInt (10 ^ 400)) (PyInt 25) (PyInt 2) = Raise OverflowError
  /\ is_zero (PyFloat 1) = false
  /\ Compute_EOQ (PyFloat 1e-200) (PyFloat 1e-200) (PyFloat 1)
     = Ok (NpFloat64 0)
  /\ (0 < sqrt (2 * 1e-200 * 1e-200 / 1))%R
  /\ Compute_EOQ (PyFloat 1e200) (PyFloat 1e200) (PyFloat 1)
     = Ok (NpFloat64 infinity).
Proof.
  repeat split; try (vm_compute; reflexivity).
  apply sqrt_lt_R0. lra.
Qed.

(** C2, as amended.  For every nonzero EOQ and every annual_demand,
    order_cost, holding_cost and unit_cost, each a Python int, a Python
    float or a NumPy float64, Compute_EOQ_TAC returns the binary64 value of
    (annual_demand/EOQ)*order_cost + (EOQ/2)*holding_cost
    + unit_cost*annual_demand computed in the source's order ([TAC_value]:
    every operation rounded, ints converted by float() where they meet a
    float, the product unit_cost*annual_demand exact between ints, a
    quotient of two ints correctly rounded), as a NumPy float64 when an
    operand is one and as a Python float otherwise; and it raises
    OverflowError exactly when that evaluation does: when an int converted
    by float(), or a quotient of two ints, is too large for a float. *)
Theorem Compute_EOQ_TAC_binary64
    (EOQ annual_demand order_cost holding_cost unit_cost : pynum) :
  is_zero EOQ = false ->
  Compute_EOQ_TAC EOQ annual_demand order_cost holding_cost unit_cost
  = match TAC_value EOQ annual_demand order_cost holding_cost unit_cost with
    | Ok TAC =>
        Ok (float_result
              (is_np EOQ || is_np annual_demand || is_np order_cost
               || is_np holding_cost || is_np unit_cost) TAC)
    | Raise _ => Raise OverflowError
    end.
Proof. intros Hz. apply Compute_EOQ_TAC_value. left. exact Hz. Qed.

Lemma Compute_EOQ_TAC_binary64_witness :
  Compute_EOQ_TAC (PyFloat 158.11388300841898) (PyInt 1000) (PyInt 25)
                  (PyInt 2) (PyInt 8)
  = Ok (PyFloat (1000 / 158.11388300841898 * 25 + 158.11388300841898 / 2 * 2
                 + 8000))
  /\ Compute_EOQ_TAC (PyInt 100) (PyInt 1000) (NpFloat64 25) (PyInt 2) (PyInt 8)
     = Ok (NpFloat64 (10 * 25 + 50 * 2 + 8000))
  /\ Compute_EOQ_TAC (PyInt 1) (PyInt (10 ^ 400)) (PyInt 25) (PyInt 2)
                     (PyInt 8)
     = Raise OverflowError.
Proof.
  split; [|split].
  - rewrite (Compute_EOQ_TAC_binary64 (PyFloat 158.11388300841898)
               (PyInt 1000) (PyInt 25) (PyInt 2) (PyInt 8) eq_refl).
    vm_compute. reflexivity.
  - rewrite (Compute_EOQ_TAC_binary64 (PyInt 100) (PyInt 1000) (NpFloat64 25)
               (PyInt 2) (PyInt 8) eq_refl).
    vm_compute. reflexivity.
  - rewrite (Compute_EOQ_TAC_binary64 (PyInt 1) (PyInt (10 ^ 400)) (PyInt 25)
               (PyInt 2) (PyInt 8) eq_refl).
    vm_compute. reflexivity.
Defined.

(** C2, as stated, fails: an int too large for a float raises OverflowError,
    and the rounded sum can be NaN (inf - inf) where the real sum is 1/2. *)
Lemma Compute_EOQ_TAC_formula_fails :
  is_zero (PyInt 1) = false
  /\ Compute_EOQ_TAC (PyInt 1) (PyInt (10 ^ 400)) (PyInt 25) (PyInt 2)
                     (PyInt 8)
     = Raise OverflowError
  /\ is_zero (PyFloat 1) = false
  /\ Compute_EOQ_TAC (PyFloat 1) (PyFloat 1e200) (PyFloat 1e200) (PyFloat 1)
                     (PyFloat (-1e200))
     = Ok (PyFloat nan)
  /\ (1e200 / 1 * 1e200 + 1 / 2 * 1 + - 1e200 * 1e200 = 1 / 2)%R.
Proof.
  repeat split; try (vm_compute; reflexivity). lra.
Qed.

(** Evaluates [Compute_EOQ] on Python operands of given types. *)
Ltac run_python_EOQ :=
  unfold Compute_EOQ, conversion_overflows, overflows, float_overflows, double;
  cbn [lit py_mul py_truediv np_sqrt pynum_Number builtin is_np negb andb orb];
  unfold mul_num, truediv_num, binop, float_truediv;
  cbn [to_float is_np orb bind]; rewrite ?int_to_float_2, ?int_to_float_0;
  cbn [bind];
  repeat match goal with
         | |- context [int_to_float ?z] =>
             let E := fresh "E" in
             destruct (int_to_float z) eqn:E; cbn [bind orb];
             [| rewrite (int_to_float_raises _ _ E)]
         end.

(** With a zero holding cost and an operand that is not an int, the radicand
    is a quotient by zero unless a conversion overflows. *)
Lemma radicand_value_zero (a o h : pynum) :
  is_zero h = true ->
  as_float a <> None \/ as_float o <> None \/ as_float h <> None ->
  (conversion_overflows a o h = true
   /\ radicand_value a o h = Raise OverflowError)
  \/ (conversion_overflows a o h = false
      /\ exists n z,
           radicand_value a o h = Ok (n / z)%float /\ (z =? 0)%float = true).
Proof.
  intros Hz Hf. destruct (to_float_of_zero h Hz) as (fh & Eh & Zh).
  assert (G : as_float a <> None \/ as_float o <> None ->
              (overflows (double a) || overflows o = true
               /\ (n <- product (double a) o ;; z <- to_float h ;;
                   Ok (n / z)%float) = Raise OverflowError)
              \/ (overflows (double a) || overflows o = false
                  /\ exists n z,
                       (n <- product (double a) o ;; z <- to_float h ;;
                        Ok (n / z)%float) = Ok (n / z)%float
                       /\ (z =? 0)%float = true)).
  { intros Hao.
    assert (P : product (double a) o
                = (fx <- to_float (double a) ;; fy <- to_float o ;;
                   Ok (fx * fy)%float)).
    { destruct a as [?|?|?], o as [?|?|?]; try reflexivity.
      destruct Hao as [Hao | Hao]; exfalso; apply Hao; reflexivity. }
    rewrite P, Eh.
    destruct (overflows (double a)) eqn:Oa.
    - left. rewrite (to_float_too_large _ Oa). split; reflexivity.
    - destruct (to_float_fits _ Oa) as (f2 & ->). cbn [bind orb].
      destruct (overflows o) eqn:Oo.
      + left. rewrite (to_float_too_large _ Oo). split; reflexivity.
      + destruct (to_float_fits _ Oo) as (fo & ->). cbn [bind].
        right. split; [reflexivity|]. do 2 eexists. split; [reflexivity|].
        exact Zh. }
  unfold radicand_value, conversion_overflows.
  destruct a as [za|fa|fa], o as [zo|fo|fo];
    try (destruct h; apply G; cbn [as_float];
         (left; discriminate) || (right; discriminate)).
  clear G. destruct h as [zh|g|g].
  - destruct Hf as [Hf | [Hf | Hf]]; exfalso; apply Hf; reflexivity.
  - unfold quotient, float_overflows. cbn [to_float] in *.
    destruct (int_to_float (2 * za * zo)) as [n|e] eqn:E; cbn [bind].
    + right. split; [reflexivity|]. do 2 eexists. split; [reflexivity|].
      injection Eh as <-. exact Zh.
    + left. rewrite (int_to_float_raises _ _ E). split; reflexivity.
  - unfold quotient, float_overflows. cbn [to_float] in *.
    destruct (int_to_float (2 * za * zo)) as [n|e] eqn:E; cbn [bind].
    + right. split; [reflexivity|]. do 2 eexists. split; [reflexivity|].
      injection Eh as <-. exact Zh.
    + left. rewrite (int_to_float_raises _ _ E). split; reflexivity.
Qed.

(** C3, as amended.  A call of Compute_EOQ with holding_cost equal to 0 (the
    int 0 or a float zero) has one of three outcomes, by the types of the
    operands.  It raises OverflowError when an int that the evaluation
    converts by float() before the division is too large
    ([conversion_overflows]: the exact product 2*annual_demand*order_cost of
    two ints divided by a float holding_cost; otherwise the int
    2*annual_demand multiplied by a float order_cost, or the int order_cost
    multiplied by a float).  Otherwise, when the three operands are Python
    ints or floats, it raises ZeroDivisionError.  Otherwise, one operand
    being a NumPy float64, it does not raise: it returns the NumPy float64
    inf or nan. *)
Theorem Compute_EOQ_zero_holding_cost
    (annual_demand order_cost holding_cost : pynum) :
  is_zero holding_cost = true ->
  if conversion_overflows annual_demand order_cost holding_cost
  then
    Compute_EOQ annual_demand order_cost holding_cost = Raise OverflowError
  else if builtin annual_demand && builtin order_cost && builtin holding_cost
  then
    Compute_EOQ annual_demand order_cost holding_cost = Raise ZeroDivisionError
  else
    exists EOQ,
      Compute_EOQ annual_demand order_cost holding_cost = Ok (NpFloat64 EOQ)
      /\ (EOQ = infinity \/ EOQ = nan).
Proof.
  intros Hz.
  destruct (is_np annual_demand || is_np order_cost || is_np holding_cost)
    eqn:Hnp.
  - (* NumPy's division *)
    assert (Hb : builtin annual_demand && builtin order_cost
                 && builtin holding_cost = false).
    { unfold builtin.
      destruct (is_np annual_demand), (is_np order_cost),
        (is_np holding_cost); try reflexivity; discriminate Hnp. }
    assert (Hf : as_float annual_demand <> None \/ as_float order_cost <> None
                 \/ as_float holding_cost <> None).
    { destruct annual_demand, order_cost, holding_cost;
        try discriminate Hnp; cbn [as_float];
        first [left; discriminate | right; left; discriminate
              | right; right; discriminate]. }
    rewrite Hb, Compute_EOQ_value by (right; exact Hnp).
    destruct (radicand_value_zero _ _ _ Hz Hf)
      as [[-> ->] | [-> (n & z & -> & Zz)]]; [reflexivity|].
    eexists. split; [reflexivity | apply sqrt_div_zero, Zz].
  - (* Python's division *)
    destruct annual_demand as [a|a|a], order_cost as [o|o|o],
      holding_cost as [h|h|h]; try discriminate Hnp; cbn [is_zero] in Hz;
      try (apply Z.eqb_eq in Hz; subst h);
      run_python_EOQ; rewrite ?Hz; try reflexivity.
Qed.

Lemma Compute_EOQ_zero_holding_cost_witness :
  Compute_EOQ (PyInt 1000) (PyInt 25) (PyInt 0) = Raise ZeroDivisionError
  /\ Compute_EOQ (PyFloat 1000) (PyInt 25) (PyFloat 0)
     = Raise ZeroDivisionError
  /\ Compute_EOQ (PyInt (10 ^ 200)) (PyInt (10 ^ 200)) (PyFloat 0)
     = Raise OverflowError
  /\ exists EOQ,
       Compute_EOQ (PyInt 1000) (PyInt 25) (NpFloat64 0) = Ok (NpFloat64 EOQ)
       /\ (EOQ = infinity \/ EOQ = nan).
Proof.
  split; [|split; [|split]].
  - exact (Compute_EOQ_zero_holding_cost (PyInt 1000) (PyInt 25) (PyInt 0)
             eq_refl).
  - exact (Compute_EOQ_zero_holding_cost (PyFloat 1000) (PyInt 25) (PyFloat 0)
             eq_refl).
  - exact (Compute_EOQ_zero_holding_cost (PyInt (10 ^ 200)) (PyInt (10 ^ 200))
             (PyFloat 0) eq_refl).
  - exact (Compute_EOQ_zero_holding_cost (PyInt 1000) (PyInt 25) (NpFloat64 0)
             eq_refl).
Defined.

(** Half of a zero operand. *)
Lemma quotient_zero_2 (x : pynum) :
  is_zero x = true -> exists q, quotient x (PyInt 2) = Ok q.
Proof.
  destruct x as [z|f|f]; cbn [is_zero]; intros H.
  - apply Z.eqb_eq in H. subst z. eexists. reflexivity.
  - unfold quotient. cbn [to_float]. rewrite int_to_float_2.
    eexists. reflexivity.
  - unfold quotient. cbn [to_float]. rewrite int_to_float_2.
    eexists. reflexivity.
Qed.

(** The product [unit_cost * annual_demand] once annual_demand is known to
    convert. *)
Lemma product_overflows (u a : pynum) :
  overflows a = false ->
  (match u, a with
   | PyInt u, PyInt a => float_overflows (u * a)
   | _, _ => overflows u
   end = true /\ product u a = Raise OverflowError)
  \/ (match u, a with
      | PyInt u, PyInt a => float_overflows (u * a)
      | _, _ => overflows u
      end = false /\ exists p, product u a = Ok p).
Proof.
  intros Oa. destruct (to_float_fits _ Oa) as (fa & Ea).
  assert (G : (overflows u = true
               /\ (fx <- to_float u ;; fy <- to_float a ;; Ok (fx * fy)%float)
                  = Raise OverflowError)
              \/ (overflows u = false
                  /\ exists p,
                       (fx <- to_float u ;; fy <- to_float a ;;
                        Ok (fx * fy)%float) = Ok p)).
  { destruct (overflows u) eqn:Ou.
    - left. rewrite (to_float_too_large _ Ou). split; reflexivity.
    - right. destruct (to_float_fits _ Ou) as (fu & ->). rewrite Ea.
      split; [reflexivity | eexists; reflexivity]. }
  unfold product. destruct u as [zu|fu|fu], a as [za|fa'|fa']; try exact G.
  unfold float_overflows.
  destruct (int_to_float (zu * za)) as [p|e] eqn:E.
  - right. split; [reflexivity | eexists; reflexivity].
  - left. rewrite (int_to_float_raises _ _ E). split; reflexivity.
Qed.

(** C4, as amended.  A call of Compute_EOQ_TAC with EOQ equal to 0 (the int
    0 or a float zero) has one of three outcomes, by the types of the
    operands ([TAC_conversion_overflows]).  When EOQ and annual_demand are
    Python ints or floats, the first division raises: OverflowError when
    annual_demand is an int too large for float() and EOQ is a float,
    ZeroDivisionError in every other case.  When EOQ or annual_demand is a
    NumPy float64, the call raises OverflowError when an int among
    annual_demand, order_cost and holding_cost is too large for float(), or
    unit_cost*annual_demand is (the exact product when both are ints, the
    int unit_cost otherwise); otherwise it does not raise and returns a
    NumPy float64 that is an infinity or nan. *)
Theorem Compute_EOQ_TAC_zero_EOQ
    (EOQ annual_demand order_cost holding_cost unit_cost : pynum) :
  is_zero EOQ = true ->
  if TAC_conversion_overflows EOQ annual_demand order_cost holding_cost
       unit_cost
  then
    Compute_EOQ_TAC EOQ annual_demand order_cost holding_cost unit_cost
    = Raise OverflowError
  else if builtin EOQ && builtin annual_demand
  then
    Compute_EOQ_TAC EOQ annual_demand order_cost holding_cost unit_cost
    = Raise ZeroDivisionError
  else
    exists TAC,
      Compute_EOQ_TAC EOQ annual_demand order_cost holding_cost unit_cost
      = Ok (NpFloat64 TAC)
      /\ is_finite TAC = false.
Proof.
  intros Hz. unfold TAC_conversion_overflows.
  destruct (builtin EOQ && builtin annual_demand) eqn:Hb.
  - (* Python's division *)
    assert (D : py_truediv annual_demand EOQ
                = if match annual_demand, EOQ with
                     | PyInt a, PyFloat _ => float_overflows a
                     | _, _ => false
                     end
                  then Raise OverflowError else Raise ZeroDivisionError).
    { cbn [py_truediv pynum_Number].
      unfold truediv_num, binop, float_truediv, float_overflows.
      destruct annual_demand as [a|a|a], EOQ as [Q|Q|Q];
        try discriminate Hb; cbn [is_zero] in Hz;
        try (apply Z.eqb_eq in Hz; subst Q);
        cbn [to_float is_np orb bind]; rewrite ?int_to_float_0; cbn [bind];
        rewrite ?Hz; try reflexivity.
      destruct (int_to_float a) as [fa|e] eqn:E; cbn [bind].
      + reflexivity.
      + rewrite (int_to_float_raises _ _ E). reflexivity. }
    destruct (match annual_demand, EOQ with
              | PyInt a, PyFloat _ => float_overflows a
              | _, _ => false
              end);
      apply Compute_EOQ_TAC_first_division; exact D.
  - (* NumPy's division *)
    assert (Hnp : is_np annual_demand || is_np EOQ = true).
    { unfold builtin in Hb.
      destruct (is_np annual_demand), (is_np EOQ); try reflexivity;
        discriminate Hb. }
    assert (Hnp' : is_np EOQ || is_np annual_demand || is_np order_cost
                   || is_np holding_cost || is_np unit_cost = true).
    { destruct (is_np annual_demand), (is_np EOQ); try discriminate Hnp;
        reflexivity. }
    rewrite Compute_EOQ_TAC_value by (right; exact Hnp). rewrite Hnp'.
    unfold TAC_value.
    assert (Q1 : quotient annual_demand EOQ
                 = (fx <- to_float annual_demand ;; fy <- to_float EOQ ;;
                    Ok (fx / fy)%float)).
    { destruct annual_demand, EOQ; try reflexivity; discriminate Hnp. }
    rewrite Q1.
    destruct (to_float_of_zero EOQ Hz) as (fQ & EQ & ZQ). rewrite EQ.
    destruct (quotient_zero_2 EOQ Hz) as (q3 & ->).
    destruct (overflows annual_demand) eqn:Oa; cbn [orb].
    { rewrite (to_float_too_large _ Oa). reflexivity. }
    destruct (to_float_fits _ Oa) as (fa & ->). cbn [bind].
    destruct (overflows order_cost) eqn:Oo; cbn [orb].
    { rewrite (to_float_too_large _ Oo). reflexivity. }
    destruct (to_float_fits _ Oo) as (fo & ->). cbn [bind].
    destruct (overflows holding_cost) eqn:Oh; cbn [orb].
    { rewrite (to_float_too_large _ Oh). reflexivity. }
    destruct (to_float_fits _ Oh) as (fh & ->). cbn [bind].
    destruct (product_overflows unit_cost annual_demand Oa)
      as [[-> ->] | [-> (p & ->)]]; cbn [bind float_result]; [reflexivity|].
    eexists. split; [reflexivity|].
    apply nonfinite_is_finite. do 2 apply add_nonfinite. apply mul_nonfinite.
    apply div_zero_nonfinite, ZQ.
Qed.

Lemma Compute_EOQ_TAC_zero_EOQ_witness :
  Compute_EOQ_TAC (PyInt 0) (PyInt 1000) (PyInt 25) (PyInt 2) (PyInt 8)
  = Raise ZeroDivisionError
  /\ Compute_EOQ_TAC (PyFloat 0) (PyInt 1000) (PyInt 25) (PyInt 2) (PyInt 8)
     = Raise ZeroDivisionError
  /\ Compute_EOQ_TAC (PyFloat 0) (PyInt (10 ^ 400)) (PyInt 25) (PyInt 2)
                     (PyInt 8)
     = Raise OverflowError
  /\ Compute_EOQ_TAC (PyInt 0) (PyInt (10 ^ 400)) (PyInt 25) (PyInt 2)
                     (PyInt 8)
     = Raise ZeroDivisionError
  /\ exists TAC,
       Compute_EOQ_TAC (NpFloat64 0) (PyInt 1000) (PyInt 25) (PyInt 2)
                       (PyInt 8)
       = Ok (NpFloat64 TAC)
       /\ is_finite TAC = false.
Proof.
  split; [|split; [|split; [|split]]].
  - exact (Compute_EOQ_TAC_zero_EOQ (PyInt 0) (PyInt 1000) (PyInt 25)
             (PyInt 2) (PyInt 8) eq_refl).
  - exact (Compute_EOQ_TAC_zero_EOQ (PyFloat 0) (PyInt 1000) (PyInt 25)
             (PyInt 2) (PyInt 8) eq_refl).
  - exact (Compute_EOQ_TAC_zero_EOQ (PyFloat 0) (PyInt (10 ^ 400)) (PyInt 25)
             (PyInt 2) (PyInt 8) eq_refl).
  - exact (Compute_EOQ_TAC_zero_EOQ (PyInt 0) (PyInt (10 ^ 400)) (PyInt 25)
             (PyInt 2) (PyInt 8) eq_refl).
  - exact (Compute_EOQ_TAC_zero_EOQ (NpFloat64 0) (PyInt 1000) (PyInt 25)
             (PyInt 2) (PyInt 8) eq_refl).
Defined.

(** A finite nonzero operand is not zero. *)
Lemma is_regular_nonzero (v : pynum) :
  is_regular v = true -> is_zero v = false.
Proof.
  assert (F : forall f, finite_nonzero f = true -> (f =? 0)%float = false).
  { intros f. unfold finite_nonzero. rewrite !ltb_spec, abs_spec, eqb_spec.
    change (Prim2SF 0) with (S754_zero false).
    change (Prim2SF infinity) with (S754_infinity false).
    destruct (Prim2SF f) as [[|]|[|]| |[|] m e]; cbn; intros H;
      try discriminate H; reflexivity. }
  destruct v as [z|f|f]; cbn [is_regular is_zero]; [|apply F | apply F].
  intros H. apply negb_true_iff in H. exact H.
Qed.

(** C5, as amended.  For all positive finite annual_demand, order_cost and
    holding_cost, each a Python int, a Python float or a NumPy float64,
    Compute_EOQ either raises OverflowError, exactly when the binary64
    evaluation [radicand_value] of the radicand does (an int converted by
    float(), or the quotient of two ints, too large for a float), or returns
    the NumPy float64 [sqrt r] of the binary64 radicand [r]; then [r >= 0],
    the result is [>= 0] (never negative, never NaN), and it is strictly
    positive exactly when [r > 0]: a radicand that underflows to 0.0 gives
    0.0. *)
Theorem Compute_EOQ_positive (annual_demand order_cost holding_cost : pynum) :
  is_positive annual_demand = true ->
  is_positive order_cost = true ->
  is_positive holding_cost = true ->
  match radicand_value annual_demand order_cost holding_cost with
  | Raise _ =>
      Compute_EOQ annual_demand order_cost holding_cost = Raise OverflowError
  | Ok r =>
      (0 <=? r)%float = true
      /\ Compute_EOQ annual_demand order_cost holding_cost
         = Ok (NpFloat64 (PrimFloat.sqrt r))
      /\ (0 <=? PrimFloat.sqrt r)%float = true
      /\ (0 <? PrimFloat.sqrt r)%float = (0 <? r)%float
  end.
Proof.
  intros Ha Ho Hh.
  destruct (is_positive_regular _ Ha) as [Ra Na].
  destruct (is_positive_regular _ Ho) as [Ro No].
  destruct (is_positive_regular _ Hh) as [Rh Nh].
  rewrite Compute_EOQ_value by (left; apply is_regular_nonzero, Rh).
  destruct (radicand_value_sign _ _ _ Ra Ro Rh) as [-> | (r & -> & S)];
    [reflexivity|].
  rewrite Na, No, Nh in S. cbn [xorb] in S.
  pose proof (sign_is_nonneg r S) as P.
  split; [exact P|]. split; [reflexivity|].
  split; [apply sqrt_nonneg, P | apply sqrt_positive_iff].
Qed.

Lemma Compute_EOQ_positive_witness :
  ((0 <=? 25000)%float = true
   /\ Compute_EOQ (PyInt 1000) (PyInt 25) (PyInt 2)
      = Ok (NpFloat64 (PrimFloat.sqrt 25000))
   /\ (0 <=? PrimFloat.sqrt 25000)%float = true
   /\ (0 <? PrimFloat.sqrt 25000)%float = (0 <? 25000)%float)
  /\ ((0 <=? 0)%float = true
      /\ Compute_EOQ (PyFloat 1e-200) (NpFloat64 1e-200) (PyFloat 1)
         = Ok (NpFloat64 (PrimFloat.sqrt 0))
      /\ (0 <=? PrimFloat.sqrt 0)%float = true
      /\ (0 <? PrimFloat.sqrt 0)%float = (0 <? 0)%float)
  /\ Compute_EOQ (PyInt (10 ^ 400)) (PyInt 25) (PyFloat 2)
     = Raise OverflowError.
Proof.
  split; [|split].
  - exact (Compute_EOQ_positive (PyInt 1000) (PyInt 25) (PyInt 2)
             eq_refl eq_refl eq_refl).
  - exact (Compute_EOQ_positive (PyFloat 1e-200) (NpFloat64 1e-200) (PyFloat 1)
             eq_refl eq_refl eq_refl).
  - exact (Compute_EOQ_positive (PyInt (10 ^ 400)) (PyInt 25) (PyFloat 2)
             eq_refl eq_refl eq_refl).
Defined.

(** C5, as stated, fails: positive operands whose radicand underflows give
    0.0, which is not strictly positive, and an int too large for a float
    gives no result at all. *)
Lemma Compute_EOQ_not_positive :
  is_positive (PyFloat 1e-200) = true
  /\ is_positive (PyFloat 1) = true
  /\ Compute_EOQ (PyFloat 1e-200) (PyFloat 1e-200) (PyFloat 1)
     = Ok (NpFloat64 0)
  /\ (0 <? 0)%float = false
  /\ is_positive (PyInt (10 ^ 400)) = true
  /\ is_positive (PyInt 25) = true
  /\ is_positive (PyInt 2) = true
  /\ Compute_EOQ (PyInt (10 ^ 400)) (PyInt 25) (PyInt 2) = Raise OverflowError.
Proof. repeat split; vm_compute; reflexivity. Qed.

(** C8, as amended.  For finite nonzero annual_demand, order_cost and
    holding_cost, each a Python int, a Python float or a NumPy float64, of
    which an odd number is negative (the radicand
    2*annual_demand*order_cost/holding_cost is then negative), Compute_EOQ
    either raises OverflowError, exactly when the binary64 evaluation
    [radicand_value] of the radicand does (an int converted by float(), or
    the quotient of two ints, too large for a float), or returns a NumPy
    float64 without raising: nan when the binary64 radicand is below zero,
    and -0.0 when the radicand underflows to -0.0. *)
Theorem Compute_EOQ_negative_radicand
    (annual_demand order_cost holding_cost : pynum) :
  is_regular annual_demand = true ->
  is_regular order_cost = true ->
  is_regular holding_cost = true ->
  xorb (xorb (is_negative annual_demand) (is_negative order_cost))
       (is_negative holding_cost) = true ->
  match radicand_value annual_demand order_cost holding_cost with
  | Raise _ =>
      Compute_EOQ annual_demand order_cost holding_cost = Raise OverflowError
  | Ok r =>
      ((r <? 0)%float = true
       /\ Compute_EOQ annual_demand order_cost holding_cost
          = Ok (NpFloat64 nan))
      \/ (r = (-0)%float
          /\ Compute_EOQ annual_demand order_cost holding_cost
             = Ok (NpFloat64 (-0)))
  end.
Proof.
  intros Ra Ro Rh Hodd.
  rewrite Compute_EOQ_value by (left; apply is_regular_nonzero, Rh).
  destruct (radicand_value_sign _ _ _ Ra Ro Rh) as [-> | (r & -> & S)];
    [reflexivity|].
  rewrite Hodd in S.
  destruct (sign_is_negative r S) as [N | ->].
  - left. split; [exact N|]. rewrite (sqrt_negative r N). reflexivity.
  - right. split; reflexivity.
Qed.

Lemma Compute_EOQ_negative_radicand_witness :
  (((-25000 <? 0)%float = true
    /\ Compute_EOQ (PyInt (-1000)) (PyInt 25) (PyInt 2) = Ok (NpFloat64 nan))
   \/ ((-25000)%float = (-0)%float
       /\ Compute_EOQ (PyInt (-1000)) (PyInt 25) (PyInt 2)
          = Ok (NpFloat64 (-0))))
  /\ (((-0 <? 0)%float = true
       /\ Compute_EOQ (PyFloat (-1e-200)) (PyFloat 1e-200) (PyFloat 1)
          = Ok (NpFloat64 nan))
      \/ ((-0)%float = (-0)%float
          /\ Compute_EOQ (PyFloat (-1e-200)) (PyFloat 1e-200) (PyFloat 1)
             = Ok (NpFloat64 (-0))))
  /\ Compute_EOQ (PyInt (- 10 ^ 400)) (PyInt 25) (PyFloat 2)
     = Raise OverflowError.
Proof.
  split; [|split].
  - exact (Compute_EOQ_negative_radicand (PyInt (-1000)) (PyInt 25) (PyInt 2)
             eq_refl eq_refl eq_refl eq_refl).
  - exact (Compute_EOQ_negative_radicand (PyFloat (-1e-200)) (PyFloat 1e-200)
             (PyFloat 1) eq_refl eq_refl eq_refl eq_refl).
  - exact (Compute_EOQ_negative_radicand (PyInt (- 10 ^ 400)) (PyInt 25)
             (PyFloat 2) eq_refl eq_refl eq_refl eq_refl).
Defined.

(** C8, as stated, fails: with a nonzero holding_cost and a negative
    radicand the call raises OverflowError for an int too large for a
    float, and returns -0.0, not NaN, when the radicand underflows. *)
Lemma Compute_EOQ_negative_radicand_fails :
  is_zero (PyInt 2) = false
  /\ (2 * - 10 ^ 400 * 25 / 2 < 0)%R
  /\ Compute_EOQ (PyInt (- 10 ^ 400)) (PyInt 25) (PyInt 2)
     = Raise OverflowError
  /\ is_zero (PyFloat 1) = false
  /\ (2 * - 1e-200 * 1e-200 / 1 < 0)%R
  /\ Compute_EOQ (PyFloat (-1e-200)) (PyFloat 1e-200) (PyFloat 1)
     = Ok (NpFloat64 (-0))
  /\ is_nan (-0) = false.
Proof.
  repeat split; try (vm_compute; reflexivity).
  - assert (0 < 10 ^ 400)%R by (apply pow_lt; lra). nra.
  - lra.
Qed.




End Returned.
